(** * Scan orchestration and report normalisation (app.py)

    A shallow embedding of the Flask application that drives a
    vulnerability scan through a GMP session and flattens the resulting
    report.  Python values are embedded as a small JSON-like tree,
    exceptions as an explicit error type, and every function that talks to
    the scan-management service or to the logger is a state-passing
    computation over a [world]. *)

From Stdlib Require Import String Ascii List Bool Arith Lia DecimalString.
Import ListNotations.
Open Scope string_scope.
Open Scope list_scope.

(** ** Python string primitives used by the source *)

Module PyStr.

(** [s.split(sep)] for a one-character separator: every occurrence of
    [sep] cuts, so the result always has at least one element. *)
Fixpoint split (sep : ascii) (s : string) : list string :=
  match s with
  | EmptyString => [EmptyString]
  | String c r =>
      if Ascii.eqb c sep then EmptyString :: split sep r
      else match split sep r with
           | h :: t => String c h :: t
           | [] => [String c EmptyString]
           end
  end.

(** [sep.join(parts)] *)
Fixpoint join (sep : ascii) (parts : list string) : string :=
  match parts with
  | [] => EmptyString
  | [p] => p
  | p :: ps => p ++ String sep (join sep ps)
  end.

(** [c in s] for a one-character needle. *)
Fixpoint has_char (c : ascii) (s : string) : bool :=
  match s with
  | EmptyString => false
  | String d r => Ascii.eqb d c || has_char c r
  end.

Fixpoint count_char (c : ascii) (s : string) : nat :=
  match s with
  | EmptyString => 0
  | String d r => (if Ascii.eqb d c then 1 else 0) + count_char c r
  end.

(** [needle in haystack] for strings. *)
Fixpoint is_substring (needle hay : string) : bool :=
  String.prefix needle hay
  || match hay with
     | EmptyString => false
     | String _ r => is_substring needle r
     end.

(** The part of [s] before the first [sep] (all of [s] when there is none). *)
Fixpoint before_first (sep : ascii) (s : string) : string :=
  match s with
  | EmptyString => EmptyString
  | String c r => if Ascii.eqb c sep then EmptyString
                  else String c (before_first sep r)
  end.

(** The part of [s] after the first [sep] (empty when there is none). *)
Fixpoint after_first (sep : ascii) (s : string) : string :=
  match s with
  | EmptyString => EmptyString
  | String c r => if Ascii.eqb c sep then r else after_first sep r
  end.

(** The characters of a string, as Python iterates them. *)
Fixpoint chars (s : string) : list string :=
  match s with
  | EmptyString => []
  | String c r => String c EmptyString :: chars r
  end.

End PyStr.

Definition slash : ascii := "/"%char.
Definition colon : ascii := ":"%char.
Definition dquote : string := String (ascii_of_nat 34) EmptyString.
Definition squote : string := String (ascii_of_nat 39) EmptyString.
Definition NA : string := "N/A".

(** ** Python values and exceptions *)

(** What [xmltodict.parse] and the JSON layer traffic in: [None], strings,
    lists and (insertion-ordered) dictionaries with string keys. *)
#[local] Set Warnings "-register-all".

Inductive value : Type :=
| VNone
| VStr (s : string)
| VList (items : list value)
| VDict (entries : list (string * value)).

(** The exceptions the source can meet.  [GvmError] is the only class the
    two operations catch; [KeyError] is caught once, in [process_report]. *)
Inductive exn : Type :=
| GvmError (msg : string)
| ValueError (msg : string)
| KeyError (key : string)
| TypeError
| AttributeError
| IndexError.

Inductive result (A : Type) : Type :=
| Ok (a : A)
| Raise (e : exn).
Arguments Ok {A} a.
Arguments Raise {A} e.

Definition rbind {A B} (r : result A) (k : A -> result B) : result B :=
  match r with
  | Ok a => k a
  | Raise e => Raise e
  end.

Declare Scope py_scope.
Delimit Scope py_scope with py.
Notation "x <-- c ;;; k" := (rbind c (fun x => k))
  (at level 61, c at next level, right associativity) : py_scope.

Fixpoint assoc (k : string) (d : list (string * value)) : option value :=
  match d with
  | [] => None
  | (k', v) :: rest => if String.eqb k' k then Some v else assoc k rest
  end.

(** [v[k]] with a string key. *)
Definition subscript (v : value) (k : string) : result value :=
  match v with
  | VDict d => match assoc k d with
               | Some x => Ok x
               | None => Raise (KeyError k)
               end
  | _ => Raise TypeError
  end.

(** [v.get(k, default)]: only dictionaries have the method. *)
Definition get_default (v : value) (k : string) (default : value) : result value :=
  match v with
  | VDict d => match assoc k d with
               | Some x => Ok x
               | None => Ok default
               end
  | _ => Raise AttributeError
  end.

Definition is_vstr (k : string) (v : value) : bool :=
  match v with
  | VStr s => String.eqb s k
  | _ => false
  end.

(** [k in v] with a string [k]. *)
Definition contains (k : string) (v : value) : result bool :=
  match v with
  | VDict d => Ok (match assoc k d with Some _ => true | None => false end)
  | VList l => Ok (existsb (is_vstr k) l)
  | VStr s => Ok (PyStr.is_substring k s)
  | VNone => Raise TypeError
  end.

(** Truth value of an object in a condition. *)
Definition truthy (v : value) : bool :=
  match v with
  | VNone => false
  | VStr EmptyString => false
  | VStr _ => true
  | VList [] => false
  | VList _ => true
  | VDict [] => false
  | VDict _ => true
  end.

(** What a [for] loop sees: list items, dictionary keys, characters. *)
Definition iterate (v : value) : result (list value) :=
  match v with
  | VList l => Ok l
  | VDict d => Ok (map (fun kv => VStr (fst kv)) d)
  | VStr s => Ok (map VStr (PyStr.chars s))
  | VNone => Raise TypeError
  end.

Definition isinstance_list (v : value) : bool :=
  match v with
  | VList _ => true
  | _ => false
  end.

(** ** CVSS vector decomposition (process_report, lines 225-236) *)

(** [severity_value.split('/')[1:] if severity_value else []] *)
Definition vector_parts (severity_value : value) : result (list string) :=
  if truthy severity_value then
    match severity_value with
    | VStr s => Ok (tl (PyStr.split slash s))
    | _ => Raise AttributeError
    end
  else Ok [].

(** [(vector_parts + ['N/A'] * 8)[:8]] *)
Definition pad8 (parts : list string) : list string :=
  firstn 8 (parts ++ repeat NA 8).

(** [x.split(':')[1] if ':' in x else x] *)
Definition metric_value (x : string) : result string :=
  if PyStr.has_char colon x then
    match PyStr.split colon x with
    | _ :: v :: _ => Ok v
    | _ => Raise IndexError
    end
  else Ok x.

Fixpoint mapM {A B} (f : A -> result B) (l : list A) : result (list B) :=
  match l with
  | [] => Ok []
  | a :: r => (b <-- f a ;;; bs <-- mapM f r ;;; Ok (b :: bs))%py
  end.

(** The eight names bound by the unpacking, in order. *)
Definition metric_names : list string :=
  ["AV"; "AC"; "PR"; "UI"; "S"; "C"; "I"; "A"].

(** The eight emitted metric values for a severity value. *)
Definition cvss_fields (severity_value : value) : result (list string) :=
  (parts <-- vector_parts severity_value ;;;
   mapM metric_value (pad8 parts))%py.

(** The decomposition as the specification words it: split on "/", drop
    the first element, keep at most eight, pad with "N/A" up to eight. *)
Definition spec_decompose (s : string) : list string :=
  let metrics := firstn 8 (tl (PyStr.split slash s)) in
  metrics ++ repeat NA (8 - length metrics).

(** The value letter as the specification words it: everything after the
    first ":" when there is one, the token itself otherwise. *)
Definition spec_metric_value (x : string) : string :=
  if PyStr.has_char colon x then PyStr.after_first colon x else x.

(** What lies between the first ":" and the next one (or the end). *)
Definition between_colons (x : string) : string :=
  PyStr.before_first colon (PyStr.after_first colon x).

(** ** XML responses (lxml elements as [EtreeTransform] returns them) *)

Inductive element : Type :=
| Element (tag : string) (attrib : list (string * string))
          (text : option string) (children : list element).

Definition el_tag (e : element) : string :=
  match e with Element t _ _ _ => t end.
Definition el_attrib (e : element) : list (string * string) :=
  match e with Element _ a _ _ => a end.
Definition el_text (e : element) : option string :=
  match e with Element _ _ t _ => t end.
Definition el_children (e : element) : list element :=
  match e with Element _ _ _ c => c end.

(** [e.get(key)] *)
Fixpoint attr_lookup (key : string) (a : list (string * string)) : option string :=
  match a with
  | [] => None
  | (k, v) :: rest => if String.eqb k key then Some v else attr_lookup key rest
  end.
Definition el_get (e : element) (key : string) : option string :=
  attr_lookup key (el_attrib e).

(** [e.findall(tag)]: the direct children with that tag, in document order. *)
Definition findall (e : element) (tag : string) : list element :=
  filter (fun c => String.eqb (el_tag c) tag) (el_children e).

(** [e.find(tag)] *)
Definition find (e : element) (tag : string) : option element :=
  hd_error (findall e tag).

(** [e.find('.//tag')]: the first proper descendant with that tag, in
    document order. *)
Fixpoint find_desc (e : element) (tag : string) : option element :=
  match e with
  | Element _ _ _ cs =>
      (fix scan (l : list element) : option element :=
         match l with
         | [] => None
         | c :: rest =>
             if String.eqb (el_tag c) tag then Some c
             else match find_desc c tag with
                  | Some d => Some d
                  | None => scan rest
                  end
         end) cs
  end.

(** [r.find('.//tag').text if r.find('.//tag') is not None else r.get('id')] *)
Definition response_id (r : element) (tag : string) : option string :=
  match find_desc r tag with
  | Some d => el_text d
  | None => el_get r "id"
  end.

(** [str(x)] of a string-or-None inside an f-string. *)
Definition str_opt (o : option string) : string :=
  match o with
  | Some s => s
  | None => "None"
  end.

Definition value_opt (o : option string) : value :=
  match o with
  | Some s => VStr s
  | None => VNone
  end.

(** ** The world the two operations run in *)

Inductive level : Type := DEBUG | ERROR.

(** What reaches the scan-management service and the socket, in order. *)
Inductive event : Type :=
| EvAuthenticate (username password : string)
| EvGetTargets
| EvDeleteTarget (target_id : option string)
| EvCreateTarget (name hosts port_list_id : string)
| EvGetConfigs
| EvGetScanners
| EvCreateTask (name : string) (config_id target_id scanner_id : option string)
| EvStartTask (task_id : option string)
| EvGetReport (report_id : string) (filter_str : string)
| EvDisconnect.

(** The capability set of the remote service behind [Gmp]: every command
    maps the service state to a response or an exception and a new state. *)
Class GmpService (S : Type) : Type := {
  svc_authenticate : string -> string -> S -> result element * S;
  svc_get_targets : S -> result element * S;
  svc_delete_target : option string -> S -> result element * S;
  svc_create_target : string -> string -> string -> S -> result element * S;
  svc_get_configs : S -> result element * S;
  svc_get_scanners : S -> result element * S;
  svc_create_task :
    string -> option string -> option string -> option string ->
    S -> result element * S;
  svc_start_task : option string -> S -> result element * S;
  svc_get_report : string -> string -> S -> result element * S
}.

Record world (S : Type) : Type := World {
  remote : S;
  connected : bool;
  trace : list event;
  log : list (level * string)
}.
Arguments World {S}.
Arguments remote {S}.
Arguments connected {S}.
Arguments trace {S}.
Arguments log {S}.

(** Computations: exceptions do not roll the world back. *)
Definition M (S A : Type) : Type := world S -> result A * world S.

Definition ret {S A} (a : A) : M S A := fun w => (Ok a, w).
Definition raise {S A} (e : exn) : M S A := fun w => (Raise e, w).
Definition bind {S A B} (c : M S A) (k : A -> M S B) : M S B :=
  fun w => match c w with
           | (Ok a, w') => k a w'
           | (Raise e, w') => (Raise e, w')
           end.
Definition lift {S A} (r : result A) : M S A := fun w => (r, w).

Notation "x <- c ;; k" := (bind c (fun x => k))
  (at level 61, c at next level, right associativity) : py_scope.
Notation "c ;; k" := (bind c (fun _ => k))
  (at level 61, right associativity) : py_scope.

(** [try: body / except <classes matched by handler>] *)
Definition try_except {S A} (body : M S A) (handler : exn -> option (M S A))
  : M S A :=
  fun w => match body w with
           | (Ok a, w') => (Ok a, w')
           | (Raise e, w') =>
               match handler e with
               | Some h => h w'
               | None => (Raise e, w')
               end
           end.

(** [try: body / finally: fin] *)
Definition try_finally {S A} (body : M S A) (fin : M S unit) : M S A :=
  fun w => match body w with
           | (r, w') =>
               match fin w' with
               | (Ok _, w'') => (r, w'')
               | (Raise e, w'') => (Raise e, w'')
               end
           end.

Definition logging {S} (l : level) (msg : string) : M S unit :=
  fun w => (Ok tt, World (remote w) (connected w) (trace w) (log w ++ [(l, msg)])).

(** [connection.disconnect()] *)
Definition disconnect {S} : M S unit :=
  fun w => (Ok tt, World (remote w) false (trace w ++ [EvDisconnect]) (log w)).

(** A GMP command: the protocol object connects the socket on demand,
    sends the command and hands back what the service answers. *)
Definition command {S} (ev : event) (op : S -> result element * S) : M S element :=
  fun w => match op (remote w) with
           | (r, s') => (r, World s' true (trace w ++ [ev]) (log w))
           end.

(** [with Gmp(connection, transform=transform) as gmp: body] *)
Definition with_gmp {S A} (body : M S A) : M S A :=
  try_finally body disconnect.

(** ** Name resolution and per-finding extraction: the pure loops *)

(** [x.text == name] *)
Definition text_is (t : option string) (name : string) : bool :=
  match t with
  | Some s => String.eqb s name
  | None => false
  end.

(** The loop shared by [get_default_config_id] and [get_default_scanner_id]:
    [for c in entities: if c.find('name').text == expected: return c.get('id')],
    then [raise not_found]. *)
Fixpoint first_named (expected : string) (not_found : exn)
         (entities : list element) : result (option string) :=
  match entities with
  | [] => Raise not_found
  | c :: rest =>
      match find c "name" with
      | None => Raise AttributeError
      | Some nm =>
          if text_is (el_text nm) expected then Ok (el_get c "id")
          else first_named expected not_found rest
      end
  end.

Definition default_config_name : string := "Full and fast".
Definition default_scanner_name : string := "OpenVAS Default".

Definition config_not_found : exn :=
  ValueError ("Default config " ++ dquote ++ default_config_name ++ dquote
              ++ " not found").
Definition scanner_not_found : exn :=
  ValueError ("Default scanner " ++ dquote ++ default_scanner_name ++ dquote
              ++ " not found").

(** Lines 219-222: the scan of the reference list. *)
Fixpoint cve_loop (refs : list value) : result value :=
  match refs with
  | [] => Ok (VStr NA)
  | ref :: rest =>
      (ty <-- get_default ref "@type" VNone ;;;
       if is_vstr "cve" ty then get_default ref "@id" (VStr NA)
       else cve_loop rest)%py
  end.

(** Lines 215-222. *)
Definition extract_cve (nvt : value) : result value :=
  (refs0 <-- get_default nvt "refs" (VDict []) ;;;
   refs1 <-- get_default refs0 "ref" (VList []) ;;;
   let refs := if isinstance_list refs1 then refs1 else VList [refs1] in
   items <-- iterate refs ;;;
   cve_loop items)%py.

(** Line 225: the guarded lookup of the severity vector. *)
Definition severity_value_of (nvt : value) : result value :=
  (c1 <-- contains "severities" nvt ;;;
   if c1 then
     sev <-- subscript nvt "severities" ;;;
     c2 <-- contains "severity" sev ;;;
     if c2 then
       sv <-- subscript sev "severity" ;;;
       c3 <-- contains "value" sv ;;;
       if c3 then subscript sv "value" else Ok (VStr EmptyString)
     else Ok (VStr EmptyString)
   else Ok (VStr EmptyString))%py.

(** One turn of the loop of [process_report]: the detail record and the
    summary record of a finding. *)
Definition process_result (res : value) : result (value * value) :=
  (host <-- subscript res "host" ;;;
   endpoint <-- subscript host "#text" ;;;
   nvt <-- subscript res "nvt" ;;;
   cve <-- extract_cve nvt ;;;
   score <-- get_default nvt "cvss_base" (VStr NA) ;;;
   severity_value <-- severity_value_of nvt ;;;
   fields <-- cvss_fields severity_value ;;;
   rid <-- subscript res "@id" ;;;
   rname <-- subscript res "name" ;;;
   rscore <-- subscript nvt "cvss_base" ;;;
   ctime <-- subscript res "creation_time" ;;;
   mtime <-- subscript res "modification_time" ;;;
   Ok (VDict [("id", rid); ("name", rname); ("score", rscore);
              ("creation_time", ctime); ("modification_time", mtime)],
       VDict ([("Endpoint", endpoint); ("CVE", cve); ("Score", score)]
              ++ combine metric_names (map VStr fields))))%py.

(** Line 206: the nested findings path. *)
Definition findings (data : value) : result value :=
  (a <-- subscript data "get_reports_response" ;;;
   b <-- subscript a "report" ;;;
   c <-- subscript b "report" ;;;
   d <-- subscript c "results" ;;;
   subscript d "result")%py.

(** [list(set(xs))]: only hashable items, each kept once.  Python leaves
    the order of a set unspecified; the model keeps first occurrences. *)
Definition hashable (v : value) : bool :=
  match v with
  | VNone | VStr _ => true
  | VList _ | VDict _ => false
  end.

Definition atom_eqb (a b : value) : bool :=
  match a, b with
  | VNone, VNone => true
  | VStr x, VStr y => String.eqb x y
  | _, _ => false
  end.

Fixpoint dedupe (l : list value) : list value :=
  match l with
  | [] => []
  | x :: r => x :: filter (fun y => negb (atom_eqb x y)) (dedupe r)
  end.

(** Line 179: the endpoint of every finding, as a set. *)
Definition report_targets (report_dict : value) : result value :=
  (a <-- get_default report_dict "get_reports_response" (VDict []) ;;;
   b <-- get_default a "report" (VDict []) ;;;
   c <-- get_default b "report" (VDict []) ;;;
   d <-- get_default c "results" (VDict []) ;;;
   rs <-- get_default d "result" (VList []) ;;;
   items <-- iterate rs ;;;
   hosts <-- mapM (fun res =>
                     h <-- subscript res "host" ;;;
                     t <-- subscript h "#text" ;;;
                     if hashable t then Ok t else Raise TypeError) items ;;;
   Ok (VList (dedupe hosts)))%py.

(** Line 178. *)
Definition report_scan_name (report_dict : value) : result value :=
  (a <-- get_default report_dict "get_reports_response" (VDict []) ;;;
   b <-- get_default a "report" (VDict []) ;;;
   c <-- get_default b "task" (VDict []) ;;;
   get_default c "name" (VStr NA))%py.

(** ** The application *)

Section App.

Context {S : Type} {service : GmpService S}.

(** [xmltodict.parse(etree.tostring(resp, pretty_print=True).decode())] *)
Variable xmltodict_parse : element -> result value.

Local Open Scope py_scope.

Definition gmp_authenticate (u p : string) : M S element :=
  command (EvAuthenticate u p) (svc_authenticate u p).
Definition gmp_get_targets : M S element :=
  command EvGetTargets svc_get_targets.
Definition gmp_delete_target (target_id : option string) : M S element :=
  command (EvDeleteTarget target_id) (svc_delete_target target_id).
Definition gmp_create_target (name hosts port_list_id : string) : M S element :=
  command (EvCreateTarget name hosts port_list_id)
          (svc_create_target name hosts port_list_id).
Definition gmp_get_configs : M S element :=
  command EvGetConfigs svc_get_configs.
Definition gmp_get_scanners : M S element :=
  command EvGetScanners svc_get_scanners.
Definition gmp_create_task (name : string)
           (config_id target_id scanner_id : option string) : M S element :=
  command (EvCreateTask name config_id target_id scanner_id)
          (svc_create_task name config_id target_id scanner_id).
Definition gmp_start_task (task_id : option string) : M S element :=
  command (EvStartTask task_id) (svc_start_task task_id).
Definition gmp_get_report (report_id filter_str : string) : M S element :=
  command (EvGetReport report_id filter_str)
          (svc_get_report report_id filter_str).

(** [except GvmError as e: return {"error": str(e)}] *)
Definition gvm_handler (e : exn) : option (M S value) :=
  match e with
  | GvmError msg => Some (ret (VDict [("error", VStr msg)]))
  | _ => None
  end.

(** Lines 65-71: the loop of [delete_target_if_exists]. *)
Fixpoint delete_loop (target_name : string) (targets : list element)
  : M S bool :=
  match targets with
  | [] => ret false
  | target :: rest =>
      match find target "name" with
      | None => raise AttributeError
      | Some nm =>
          if text_is (el_text nm) target_name then
            let target_id := el_get target "id" in
            gmp_delete_target target_id ;;
            logging DEBUG ("Deleted existing target: " ++ target_name
                           ++ " with ID: " ++ str_opt target_id) ;;
            ret true
          else delete_loop target_name rest
      end
  end.

Definition delete_target_if_exists (target_name : string) : M S bool :=
  try_except
    (targets_resp <- gmp_get_targets ;;
     delete_loop target_name (findall targets_resp "target"))
    (fun e => match e with
              | GvmError msg =>
                  Some (logging ERROR ("Error deleting target: " ++ msg) ;;
                        ret false)
              | _ => None
              end).

Definition get_default_config_id : M S (option string) :=
  configs <- gmp_get_configs ;;
  lift (first_named default_config_name config_not_found
                    (findall configs "config")).

Definition get_default_scanner_id : M S (option string) :=
  scanners <- gmp_get_scanners ;;
  lift (first_named default_scanner_name scanner_not_found
                    (findall scanners "scanner")).

(** Lines 134-149: the body of the [with] block of [trigger_scan]. *)
Definition trigger_scan_body (scan_name targets port_list_id : string)
  : M S value :=
  gmp_authenticate "admin" "admin" ;;
  delete_target_if_exists scan_name ;;
  target_resp <- gmp_create_target scan_name targets port_list_id ;;
  let target_id := response_id target_resp "id" in
  config_id <- get_default_config_id ;;
  scanner_id <- get_default_scanner_id ;;
  task_resp <- gmp_create_task scan_name config_id target_id scanner_id ;;
  let task_id := response_id task_resp "id" in
  start_task_resp <- gmp_start_task task_id ;;
  let scan_id := response_id start_task_resp "report_id" in
  ret (VDict [("message", VStr "Scan started");
              ("scan_name", VStr scan_name);
              ("targets", VStr targets);
              ("scan_id", value_opt scan_id)]).

Definition trigger_scan (scan_name targets port_list_id : string) : M S value :=
  try_finally
    (try_except
       (with_gmp (trigger_scan_body scan_name targets port_list_id))
       gvm_handler)
    disconnect.

Definition process_report (data scan_name targets : value) : M S value :=
  found <- try_except
             (results <- lift (findings data) ;; ret (Some results))
             (fun e => match e with
                       | KeyError k =>
                           Some (logging ERROR
                                   ("Key error: " ++ squote ++ k ++ squote) ;;
                                 ret None)
                       | _ => None
                       end) ;;
  match found with
  | None => ret VNone
  | Some results =>
      items <- lift (iterate results) ;;
      rows <- lift (mapM process_result items) ;;
      ret (VDict [("scan_name", scan_name);
                  ("targets", targets);
                  ("result_details", VList (map fst rows));
                  ("result_summary", VList (map snd rows))])
  end.

Definition report_filter : string :=
  "levels=hml rows=100 min_qod=70 first=1 sort-reverse=severity".

(** Lines 171-183: the body of the [with] block of [retrieve_results]. *)
Definition retrieve_results_body (scan_id : string) : M S value :=
  gmp_authenticate "admin" "admin" ;;
  report_resp <- gmp_get_report scan_id report_filter ;;
  report_dict <- lift (xmltodict_parse report_resp) ;;
  scan_name <- lift (report_scan_name report_dict) ;;
  targets <- lift (report_targets report_dict) ;;
  process_report report_dict scan_name targets.

Definition retrieve_results (scan_id : string) : M S value :=
  try_finally
    (try_except (with_gmp (retrieve_results_body scan_id)) gvm_handler)
    disconnect.

(** ** The two routes: a JSON body and a status code *)

Definition default_port_list_id : string :=
  "33d0cd82-57c6-11e1-8ed1-406186ea4fc5".

Definition given (field : option string) : bool :=
  match field with
  | Some (String _ _) => true
  | _ => false
  end.

(** POST /trigger_scan; the two arguments are [data.get('scan_name')] and
    [data.get('targets')]. *)
Definition trigger_scan_api (scan_name targets : option string)
  : M S (value * nat) :=
  match scan_name, targets with
  | Some n, Some t =>
      if given scan_name && given targets then
        res <- trigger_scan n t default_port_list_id ;;
        is_err <- lift (contains "error" res) ;;
        if is_err then ret (res, 500) else ret (res, 200)
      else ret (VDict [("error", VStr "scan_name, targets, are required")], 400)
  | _, _ => ret (VDict [("error", VStr "scan_name, targets, are required")], 400)
  end.

(** GET /get_results/<scan_id>: [jsonify(results)] with no status. *)
Definition get_results (scan_id : string) : M S (value * nat) :=
  results <- retrieve_results scan_id ;;
  ret (results, 200).

End App.

(** ** An in-memory scan-management service *)

Module Stub.

Record target : Type := Target {
  t_id : string;
  t_name : string;
  t_hosts : string;
  t_port_list : string
}.

Record task : Type := Task {
  k_id : string;
  k_name : string;
  k_config : string;
  k_target : string;
  k_scanner : string
}.

(** Modelled from the spec: the remote scan-management service, which
    is outside the repository; section 6 gives its capability set
    (listTargets, createTarget, deleteTarget, listConfigs, listScanners,
    createTask, startTask, getReport), each of which may fail with a
    generic remote error.  [faults] schedules those failures, one entry
    per command; [cascade] says whether deleting a target also removes
    the tasks tied to it, which the spec leaves to the service. *)
Record state : Type := State {
  targets : list target;
  tasks : list task;
  started : list string;
  configs : list (string * string);
  scanners : list (string * string);
  reports : list (string * element);
  counter : nat;
  faults : list (option exn);
  cascade : bool
}.

Definition fresh_id (n : nat) : string :=
  "id-" ++ NilEmpty.string_of_uint (Nat.to_uint n).

Definition set_faults (f : list (option exn)) (st : state) : state :=
  State (targets st) (tasks st) (started st) (configs st) (scanners st)
        (reports st) (counter st) f (cascade st).

(** Every command first consults the fault schedule. *)
Definition guarded (op : state -> result element * state) (st : state)
  : result element * state :=
  match faults st with
  | Some e :: rest => (Raise e, set_faults rest st)
  | None :: rest => op (set_faults rest st)
  | [] => op st
  end.

Definition response (name status : string) (attrs : list (string * string))
           (children : list element) : element :=
  Element name (("status", status) :: attrs) None children.

Definition named_xml (tag : string) (id name : string) : element :=
  Element tag [("id", id)] None [Element "name" [] (Some name) []].

Definition target_xml (t : target) : element :=
  Element "target" [("id", t_id t)] None
          [Element "name" [] (Some (t_name t)) [];
           Element "hosts" [] (Some (t_hosts t)) []].

Definition named (name : string) (t : target) : bool :=
  String.eqb (t_name t) name.
Definition other_id (i : string) (t : target) : bool :=
  negb (String.eqb (t_id t) i).

Definition remove_target (i : string) (st : state) : state :=
  State (filter (other_id i) (targets st))
        (if cascade st
         then filter (fun k => negb (String.eqb (k_target k) i)) (tasks st)
         else tasks st)
        (started st) (configs st) (scanners st) (reports st)
        (counter st) (faults st) (cascade st).

Definition authenticate (_ _ : string) : state -> result element * state :=
  guarded (fun st => (Ok (response "authenticate_response" "200" [] []), st)).

Definition get_targets : state -> result element * state :=
  guarded (fun st =>
    (Ok (response "get_targets_response" "200" [] (map target_xml (targets st))),
     st)).

Definition delete_target (target_id : option string)
  : state -> result element * state :=
  guarded (fun st =>
    match target_id with
    | None => (Raise (GvmError "delete_target requires a target_id argument"), st)
    | Some i =>
        if existsb (fun t => String.eqb (t_id t) i) (targets st) then
          (Ok (response "delete_target_response" "200" [] []),
           remove_target i st)
        else (Ok (response "delete_target_response" "404" [] []), st)
    end).

Definition create_target (name hosts port_list_id : string)
  : state -> result element * state :=
  guarded (fun st =>
    let i := fresh_id (counter st) in
    (Ok (response "create_target_response" "201" [("id", i)] []),
     State (targets st ++ [Target i name hosts port_list_id])
           (tasks st) (started st) (configs st) (scanners st) (reports st)
           (Datatypes.S (counter st)) (faults st) (cascade st))).

Definition get_configs : state -> result element * state :=
  guarded (fun st =>
    (Ok (response "get_configs_response" "200" []
           (map (fun c => named_xml "config" (fst c) (snd c)) (configs st))),
     st)).

Definition get_scanners : state -> result element * state :=
  guarded (fun st =>
    (Ok (response "get_scanners_response" "200" []
           (map (fun c => named_xml "scanner" (fst c) (snd c)) (scanners st))),
     st)).

Definition create_task (name : string)
           (config_id target_id scanner_id : option string)
  : state -> result element * state :=
  guarded (fun st =>
    match config_id, target_id, scanner_id with
    | Some c, Some t, Some s =>
        let i := fresh_id (counter st) in
        (Ok (response "create_task_response" "201" [("id", i)] []),
         State (targets st) (tasks st ++ [Task i name c t s]) (started st)
               (configs st) (scanners st) (reports st)
               (Datatypes.S (counter st)) (faults st) (cascade st))
    | _, _, _ => (Raise (GvmError "create_task requires its arguments"), st)
    end).

Definition start_task (task_id : option string)
  : state -> result element * state :=
  guarded (fun st =>
    match task_id with
    | None => (Raise (GvmError "start_task requires a task_id argument"), st)
    | Some i =>
        if existsb (fun k => String.eqb (k_id k) i) (tasks st) then
          let r := fresh_id (counter st) in
          (Ok (response "start_task_response" "202" []
                 [Element "report_id" [] (Some r) []]),
           State (targets st) (tasks st) (started st ++ [i])
                 (configs st) (scanners st) (reports st)
                 (Datatypes.S (counter st)) (faults st) (cascade st))
        else (Ok (response "start_task_response" "404" [] []), st)
    end).

Fixpoint report_lookup (i : string) (l : list (string * element))
  : option element :=
  match l with
  | [] => None
  | (k, e) :: rest => if String.eqb k i then Some e else report_lookup i rest
  end.

Definition get_report (report_id _ : string)
  : state -> result element * state :=
  guarded (fun st =>
    match report_lookup report_id (reports st) with
    | Some e => (Ok e, st)
    | None => (Ok (response "get_reports_response" "404" [] []), st)
    end).

#[global] Instance service : GmpService state := {
  svc_authenticate := authenticate;
  svc_get_targets := get_targets;
  svc_delete_target := delete_target;
  svc_create_target := create_target;
  svc_get_configs := get_configs;
  svc_get_scanners := get_scanners;
  svc_create_task := create_task;
  svc_start_task := start_task;
  svc_get_report := get_report
}.

(** How many targets, and how many tasks, carry a name. *)
Definition targets_named (name : string) (st : state) : nat :=
  length (filter (named name) (targets st)).
Definition tasks_named (name : string) (st : state) : nat :=
  length (filter (fun k => String.eqb (k_name k) name) (tasks st)).

(** The service is ready for a scan: both reference entities are there
    under their expected names and no failure is scheduled. *)
Definition ready (st : state) : Prop :=
  existsb (fun c => String.eqb (snd c) default_config_name) (configs st) = true
  /\ existsb (fun c => String.eqb (snd c) default_scanner_name) (scanners st) = true
  /\ faults st = [].

(** What one successful scan request leaves behind on the service, read
    off the state rather than off the protocol: the first target of that
    name (if any) is gone, then a target, a task bound to it and a
    started report are added. *)
Definition find_target (name : string) (st : state) : option target :=
  List.find (named name) (targets st).

Definition cleared (name : string) (st : state) : state :=
  match find_target name st with
  | Some t => remove_target (t_id t) st
  | None => st
  end.

Definition id_of_name (expected : string) (l : list (string * string))
  : option string :=
  option_map fst (List.find (fun c => String.eqb (snd c) expected) l).

Definition scan_effect (name hosts port_list_id : string) (st : state) : state :=
  let st1 := cleared name st in
  let n := counter st1 in
  State (targets st1 ++ [Target (fresh_id n) name hosts port_list_id])
        (tasks st1
         ++ [Task (fresh_id (1 + n)) name
                  (str_opt (id_of_name default_config_name (configs st1)))
                  (fresh_id n)
                  (str_opt (id_of_name default_scanner_name (scanners st1)))])
        (started st1 ++ [fresh_id (1 + n)])
        (configs st1) (scanners st1) (reports st1)
        (3 + n) (faults st1) (cascade st1).

Definition session_trace (name hosts port_list_id : string) (st : state)
  : list event :=
  [EvAuthenticate "admin" "admin"; EvGetTargets]
  ++ match find_target name st with
     | Some t => [EvDeleteTarget (Some (t_id t))]
     | None => []
     end
  ++ [EvCreateTarget name hosts port_list_id; EvGetConfigs; EvGetScanners;
      EvCreateTask name (id_of_name default_config_name (configs st))
                   (Some (fresh_id (counter st)))
                   (id_of_name default_scanner_name (scanners st));
      EvStartTask (Some (fresh_id (1 + counter st)))].

Definition scan_trace (name hosts port_list_id : string) (st : state)
  : list event :=
  session_trace name hosts port_list_id st ++ [EvDisconnect; EvDisconnect].

Definition scan_log (name : string) (st : state) : list (level * string) :=
  match find_target name st with
  | Some t => [(DEBUG, "Deleted existing target: " ++ name
                       ++ " with ID: " ++ t_id t)%string]
  | None => []
  end.

Definition created_target (name hosts port : string) (st : state) : target :=
  Target (fresh_id (counter st)) name hosts port.

Definition scan_reply (name hosts : string) (st : state) : value :=
  VDict [("message", VStr "Scan started");
         ("scan_name", VStr name);
         ("targets", VStr hosts);
         ("scan_id", VStr (fresh_id (2 + counter st)))].

(** A conversion in the manner of xmltodict: attributes under "@name",
    repeated children gathered into a list, text under "#text" when the
    element has anything else, and a childless, attribute-free element
    as its text. *)
Fixpoint first_tags (seen : list string) (l : list (string * value))
  : list string :=
  match l with
  | [] => []
  | (t, _) :: rest =>
      if existsb (String.eqb t) seen then first_tags seen rest
      else t :: first_tags (t :: seen) rest
  end.

Definition gather (pairs : list (string * value)) : list (string * value) :=
  map (fun t =>
         (t, match filter (fun p => String.eqb (fst p) t) pairs with
             | [p] => snd p
             | ps => VList (map snd ps)
             end))
      (first_tags [] pairs).

Fixpoint xml_value (e : element) : value :=
  match e with
  | Element _ attrs txt cs =>
      match attrs, cs with
      | [], [] => value_opt txt
      | _, _ =>
          VDict (map (fun a => (("@" ++ fst a)%string, VStr (snd a))) attrs
                 ++ gather (map (fun c => (el_tag c, xml_value c)) cs)
                 ++ match txt with
                    | Some t => [("#text", VStr t)]
                    | None => []
                    end)
      end
  end.

Definition to_dict (e : element) : result value :=
  Ok (VDict [(el_tag e, xml_value e)]).

Definition initial : state :=
  State [] [] []
        [("c-1", "Base"); ("c-2", "Full and fast")]
        [("s-1", "CVE"); ("s-2", "OpenVAS Default")]
        [] 0 [] false.

Definition fresh_world (st : state) : world state := World st false [] [].

(** Fixtures: a service whose configurations only nearly carry the
    expected name, one that fails on its n-th command, and one holding
    two reports: "r0" without results, "r1" with a single result. *)
Definition with_configs (cs : list (string * string)) (st : state) : state :=
  State (targets st) (tasks st) (started st) cs (scanners st)
        (reports st) (counter st) (faults st) (cascade st).

Definition with_reports (rs : list (string * element)) (st : state) : state :=
  State (targets st) (tasks st) (started st) (configs st) (scanners st)
        rs (counter st) (faults st) (cascade st).

Definition near_misses : state :=
  with_configs [("c-1", "full and fast"); ("c-2", "Full and");
                ("c-3", "Full and fast ")] initial.

Definition failing_at (n : nat) (msg : string) : state :=
  set_faults (repeat None n ++ [Some (GvmError msg)]) initial.

Definition report_xml (id : string) (results : list element) : element :=
  response "get_reports_response" "200" []
    [Element "report" [("id", id)] None
       ([Element "task" [("id", "t-1")] None
           [Element "name" [] (Some "test1") []]]
        ++ match results with
           | [] => []
           | _ => [Element "report" [("id", id)] None
                     [Element "results" [("start", "1")] None results]]
           end)].

Definition result_xml (id host cvss vector : string) (refs : list element)
  : element :=
  Element "result" [("id", id)] None
    [Element "name" [] (Some "Weak SSH ciphers") [];
     Element "creation_time" [] (Some "2024-01-01T00:00:00Z") [];
     Element "modification_time" [] (Some "2024-01-01T00:00:00Z") [];
     Element "host" [] (Some host) [Element "asset" [("asset_id", "a-1")] None []];
     Element "nvt" [("oid", "1.3.6.1")] None
       [Element "cvss_base" [] (Some cvss) [];
        Element "severities" [("score", cvss)] None
          [Element "severity" [("type", "cvss_base_v3")] None
             [Element "value" [] (Some vector) []]];
        Element "refs" [] None refs]].

Definition cve_ref (id : string) : element :=
  Element "ref" [("type", "cve"); ("id", id)] None [].

Definition sample_result (id : string) : element :=
  result_xml id "10.0.0.1" "7.5" "CVSS:3.1/AV:N/AC:L/PR:N/UI:N/S:U/C:H/I:N/A:N"
             [cve_ref "CVE-2023-0001"].

Definition reporting : state :=
  with_reports [("r0", report_xml "r0" []);
                ("r1", report_xml "r1" [sample_result "res-1"]);
                ("r2", report_xml "r2" [sample_result "res-1";
                                        sample_result "res-2"])]
               initial.

End Stub.

(** ** Vocabulary of the specification *)

Definition findings_path : list string :=
  ["get_reports_response"; "report"; "report"; "results"; "result"].

(** Walking [keys] down from [v] through dictionaries, the key [missing]
    is the first one that is not there. *)
Inductive path_absent : list string -> value -> string -> Prop :=
| absent_here (k : string) (ks : list string) (d : list (string * value)) :
    assoc k d = None -> path_absent (k :: ks) (VDict d) k
| absent_below (k : string) (ks : list string) (d : list (string * value))
               (v : value) (missing : string) :
    assoc k d = Some v -> path_absent ks v missing ->
    path_absent (k :: ks) (VDict d) missing.

Definition is_dict (v : value) : bool :=
  match v with
  | VDict _ => true
  | _ => false
  end.

(** A reference entry whose type equals "cve". *)
Definition is_cve_ref (r : value) : bool :=
  match r with
  | VDict d => match assoc "@type" d with
               | Some t => is_vstr "cve" t
               | None => false
               end
  | _ => false
  end.

(** The id of a reference entry, "N/A" when it has none. *)
Definition ref_id (r : value) : value :=
  match r with
  | VDict d => match assoc "@id" d with
               | Some i => i
               | None => VStr NA
               end
  | _ => VStr NA
  end.

(** The reference list of a finding's nvt, a single reference object
    counting as a one-element list. *)
Definition reference_list (nvt : value) : list value :=
  match nvt with
  | VDict d =>
      match assoc "refs" d with
      | Some (VDict rd) =>
          match assoc "ref" rd with
          | Some (VList l) => l
          | Some single => [single]
          | None => []
          end
      | _ => []
      end
  | _ => []
  end.

(** The CVE as the specification words it: the id of the first cve-typed
    entry, "N/A" when there is none. *)
Definition spec_cve (refs : list value) : value :=
  match List.find is_cve_ref refs with
  | Some r => ref_id r
  | None => VStr NA
  end.

(** The nvt either has no "refs" or has a mapping there. *)
Definition refs_shape_ok (nvt_entries : list (string * value)) : bool :=
  match assoc "refs" nvt_entries with
  | None => true
  | Some (VDict _) => true
  | Some _ => false
  end.

Definition error_object (msg : string) : value := VDict [("error", VStr msg)].

(** An entity that has a name, and not the expected one. *)
Definition named_otherwise (expected : string) (e : element) : bool :=
  match find e "name" with
  | Some nm => negb (text_is (el_text nm) expected)
  | None => false
  end.

(** What the wrapper [try / with / except GvmError / finally] shared by
    the two operations does to the outcome of its body. *)
Definition at_boundary (r : result value) : result value :=
  match r with
  | Raise (GvmError msg) => Ok (error_object msg)
  | _ => r
  end.

Definition closed {S} (w : world S) : world S :=
  World (remote w) false (trace w ++ [EvDisconnect]) (log w).

(** ** Further vocabulary: shapes of results and of sessions *)

Definition scan_name_path : list string :=
  ["get_reports_response"; "report"; "task"; "name"].

Definition severity_path : list string :=
  ["severities"; "severity"; "value"].

Definition detail_keys : list string :=
  ["id"; "name"; "score"; "creation_time"; "modification_time"].

Definition summary_keys : list string :=
  ["Endpoint"; "CVE"; "Score"] ++ metric_names.

(** The reply of a scan that started. *)
Definition scan_started (scan_name targets : string) (scan_id : option string)
  : value :=
  VDict [("message", VStr "Scan started");
         ("scan_name", VStr scan_name);
         ("targets", VStr targets);
         ("scan_id", value_opt scan_id)].

(** [result['host']['#text']], the endpoint of a finding. *)
Definition endpoint_of (res : value) : result value :=
  (h <-- subscript res "host" ;;; subscript h "#text")%py.



(** A finding as the conversion yields it for one result element. *)
Definition sample_finding : value := Stub.xml_value (Stub.sample_result "res-1").

(** The same finding with the cvss_base of its nvt taken away. *)
Definition without_key (k : string) (v : value) : value :=
  match v with
  | VDict d => VDict (filter (fun kv => negb (String.eqb (fst kv) k)) d)
  | _ => v
  end.

Definition finding_without_score : value :=
  match sample_finding with
  | VDict d =>
      VDict (map (fun kv => if String.eqb (fst kv) "nvt"
                            then (fst kv, without_key "cvss_base" (snd kv))
                            else kv) d)
  | v => v
  end.

Definition report_of (items : list value) : value :=
  VDict [("get_reports_response",
          VDict [("report",
                  VDict [("task", VDict [("name", VStr "test1")]);
                         ("report",
                          VDict [("results", VDict [("result", VList items)])])])])].

(** A service that already holds three targets, two of them under the
    name "test1". *)
Definition crowded_service : Stub.state :=
  Stub.State [Stub.Target "t-1" "other" "10.0.0.9" "pl";
              Stub.Target "t-2" "test1" "10.0.0.1" "pl";
              Stub.Target "t-3" "test1" "10.0.0.2" "pl"]
             [] []
             (Stub.configs Stub.initial) (Stub.scanners Stub.initial)
             [] 7 [] false.

(** * Properties *)

(** ** Splitting and joining *)

Section SplitFacts.

Variable sep : ascii.

Lemma split_not_nil (s : string) : PyStr.split sep s <> [].
Proof.
  destruct s as [|c r]; simpl; [discriminate|].
  destruct (Ascii.eqb c sep); [discriminate|].
  destruct (PyStr.split sep r); discriminate.
Qed.

Lemma split_cons (s : string) :
  exists h t, PyStr.split sep s = h :: t.
Proof.
  destruct (PyStr.split sep s) as [|h t] eqn:E.
  - now apply split_not_nil in E.
  - now exists h, t.
Qed.

(** The first piece is what precedes the first separator. *)
Lemma split_head (s : string) :
  hd EmptyString (PyStr.split sep s) = PyStr.before_first sep s.
Proof.
  induction s as [|c r IH]; simpl; [reflexivity|].
  destruct (Ascii.eqb c sep); [reflexivity|].
  destruct (split_cons r) as (h & t & E).
  rewrite E in *. simpl in *. now rewrite IH.
Qed.

(** The other pieces are the pieces of what follows it. *)
Lemma split_tail (s : string) :
  PyStr.has_char sep s = true ->
  tl (PyStr.split sep s) = PyStr.split sep (PyStr.after_first sep s).
Proof.
  induction s as [|c r IH]; simpl; [discriminate|].
  destruct (Ascii.eqb c sep); simpl; [reflexivity|].
  intros Hc. destruct (split_cons r) as (h & t & E).
  rewrite E in *. simpl in *. auto.
Qed.

Lemma split_no_sep (s : string) :
  PyStr.has_char sep s = false -> PyStr.split sep s = [s].
Proof.
  induction s as [|c r IH]; simpl; [reflexivity|].
  destruct (Ascii.eqb c sep); simpl; [discriminate|].
  intros Hc. now rewrite (IH Hc).
Qed.

Lemma split_app_sep (p rest : string) :
  PyStr.has_char sep p = false ->
  PyStr.split sep (p ++ String sep rest) = p :: PyStr.split sep rest.
Proof.
  induction p as [|c r IH]; simpl.
  - intros _. now rewrite Ascii.eqb_refl.
  - destruct (Ascii.eqb c sep); simpl; [discriminate|].
    intros Hc. now rewrite (IH Hc).
Qed.

(** Splitting undoes joining when no piece holds the separator. *)
Lemma split_join (p : string) (ps : list string) :
  Forall (fun x => PyStr.has_char sep x = false) (p :: ps) ->
  PyStr.split sep (PyStr.join sep (p :: ps)) = p :: ps.
Proof.
  revert p. induction ps as [|q qs IH]; intros p Hall.
  - simpl. apply split_no_sep. now inversion Hall.
  - inversion Hall as [|? ? Hp Hrest]; subst.
    change (PyStr.join sep (p :: q :: qs))
      with (p ++ String sep (PyStr.join sep (q :: qs)))%string.
    rewrite (split_app_sep _ _ Hp). now rewrite (IH q Hrest).
Qed.

(** Joining undoes splitting, always. *)
Lemma join_split (s : string) :
  PyStr.join sep (PyStr.split sep s) = s.
Proof.
  induction s as [|c r IH]; simpl; [reflexivity|].
  destruct (Ascii.eqb c sep) eqn:Ec.
  - apply Ascii.eqb_eq in Ec. subst c.
    destruct (split_cons r) as (h & t & E). rewrite E in *.
    simpl. now rewrite <- IH.
  - destruct (split_cons r) as (h & t & E). rewrite E in *.
    rewrite <- IH. destruct t; reflexivity.
Qed.

Lemma join_nonempty (p q : string) (qs : list string) :
  PyStr.join sep (p :: q :: qs) <> EmptyString.
Proof.
  change (PyStr.join sep (p :: q :: qs))
    with (p ++ String sep (PyStr.join sep (q :: qs)))%string.
  destruct p; discriminate.
Qed.

Lemma count_one_after (s : string) :
  PyStr.count_char sep s = 1 ->
  PyStr.has_char sep (PyStr.after_first sep s) = false.
Proof.
  assert (Hz : forall r, PyStr.count_char sep r = 0 ->
                         PyStr.has_char sep r = false).
  { induction r as [|d r' IHr]; simpl; [reflexivity|].
    destruct (Ascii.eqb d sep); simpl; [discriminate|]. exact IHr. }
  induction s as [|c r IH]; simpl; [discriminate|].
  destruct (Ascii.eqb c sep); simpl.
  - intros Hc. apply Hz. lia.
  - exact IH.
Qed.

Lemma before_first_no_sep (s : string) :
  PyStr.has_char sep s = false -> PyStr.before_first sep s = s.
Proof.
  induction s as [|c r IH]; simpl; [reflexivity|].
  destruct (Ascii.eqb c sep); simpl; [discriminate|].
  intros Hc. now rewrite (IH Hc).
Qed.

End SplitFacts.

(** ** CVSS decomposition *)

Lemma pad8_firstn (parts : list string) :
  pad8 parts = firstn 8 parts ++ repeat NA (8 - length (firstn 8 parts)).
Proof.
  unfold pad8. rewrite firstn_app. f_equal.
  rewrite length_firstn.
  destruct (Nat.le_gt_cases 8 (length parts)) as [Hge|Hlt].
  - replace (8 - length parts) with 0 by lia.
    replace (8 - Nat.min 8 (length parts)) with 0 by lia. reflexivity.
  - replace (Nat.min 8 (length parts)) with (length parts) by lia.
    remember (8 - length parts) as n eqn:Hn.
    assert (Hle : n <= 8) by lia. clear Hn Hlt.
    do 9 (destruct n as [|n]; [reflexivity|]). lia.
Qed.

Lemma pad8_short (parts : list string) :
  length parts <= 8 -> pad8 parts = parts ++ repeat NA (8 - length parts).
Proof.
  intros Hle. rewrite pad8_firstn.
  now rewrite (firstn_all2 parts Hle).
Qed.

Lemma vector_parts_str (s : string) :
  vector_parts (VStr s) = Ok (tl (PyStr.split slash s)).
Proof. destruct s; reflexivity. Qed.

Lemma metric_value_eq (x : string) :
  metric_value x = Ok (if PyStr.has_char colon x then between_colons x else x).
Proof.
  unfold metric_value, between_colons.
  destruct (PyStr.has_char colon x) eqn:Hc; [|reflexivity].
  pose proof (split_tail colon x Hc) as Ht.
  pose proof (split_head colon (PyStr.after_first colon x)) as Hh.
  destruct (split_cons colon x) as (h & t & E). rewrite E in *. simpl in Ht.
  subst t.
  destruct (split_cons colon (PyStr.after_first colon x)) as (h' & t' & E').
  rewrite E' in *. simpl in Hh. now subst h'.
Qed.

Lemma mapM_app {A B} (f : A -> result B) (l1 l2 : list A) (r1 r2 : list B) :
  mapM f l1 = Ok r1 -> mapM f l2 = Ok r2 -> mapM f (l1 ++ l2) = Ok (r1 ++ r2).
Proof.
  revert r1. induction l1 as [|a l IH]; simpl; intros r1 H1 H2.
  - now inversion H1.
  - destruct (f a) as [b|e]; simpl in *; [|discriminate].
    destruct (mapM f l) as [bs|e]; simpl in *; [|discriminate].
    inversion H1; subst. now rewrite (IH bs eq_refl H2).
Qed.

Lemma mapM_padding (n : nat) :
  mapM metric_value (repeat NA n) = Ok (repeat NA n).
Proof.
  induction n as [|n IH]; simpl; [reflexivity|].
  now rewrite IH.
Qed.

Lemma mapM_length {A B} (f : A -> result B) (l : list A) (r : list B) :
  mapM f l = Ok r -> length r = length l.
Proof.
  revert r. induction l as [|a l IH]; simpl; intros r Hr.
  - now inversion Hr.
  - destruct (f a); simpl in *; [|discriminate].
    destruct (mapM f l); simpl in *; [|discriminate].
    inversion Hr; subst. simpl. now rewrite (IH _ eq_refl).
Qed.

Lemma spec_decompose_length (s : string) : length (spec_decompose s) = 8.
Proof.
  unfold spec_decompose. rewrite length_app, repeat_length, length_firstn. lia.
Qed.

(** C3: for every severity vector string the code splits on "/", drops the
    first piece, keeps at most eight and pads with "N/A" up to eight,
    exactly as the specification words it; the empty string gives eight
    "N/A", and a vector of k <= 8 metric tokens after its prefix gives the
    k parsed values followed by 8 - k times "N/A". *)
Theorem cvss_decomposition (s : string) :
  vector_parts (VStr s) = Ok (tl (PyStr.split slash s))
  /\ pad8 (tl (PyStr.split slash s)) = spec_decompose s
  /\ length (spec_decompose s) = 8
  /\ cvss_fields (VStr s) = mapM metric_value (spec_decompose s)
  /\ cvss_fields (VStr EmptyString) = Ok (repeat NA 8)
  /\ (forall (prefix : string) (toks vals : list string),
         s = PyStr.join slash (prefix :: toks) ->
         Forall (fun x => PyStr.has_char slash x = false) (prefix :: toks) ->
         length toks <= 8 ->
         mapM metric_value toks = Ok vals ->
         cvss_fields (VStr s) = Ok (vals ++ repeat NA (8 - length toks))).
Proof.
  assert (Hpad : pad8 (tl (PyStr.split slash s)) = spec_decompose s)
    by apply pad8_firstn.
  split; [apply vector_parts_str|].
  split; [exact Hpad|].
  split; [apply spec_decompose_length|].
  split.
  { unfold cvss_fields. rewrite vector_parts_str. simpl. now rewrite Hpad. }
  split; [reflexivity|].
  - intros prefix toks vals Hs Hall Hlen Hvals.
    unfold cvss_fields. rewrite vector_parts_str. simpl.
    rewrite Hs, (split_join slash prefix toks Hall). simpl tl.
    rewrite (pad8_short toks Hlen).
    apply mapM_app; [exact Hvals | apply mapM_padding].
Qed.

Lemma cvss_decomposition_witness :
  cvss_fields (VStr "CVSS:3.1/AV:N/AC:L/PR:N")
  = Ok (["N"; "L"; "N"] ++ repeat NA (8 - 3)).
Proof.
  apply (proj2 (proj2 (proj2 (proj2 (proj2
          (cvss_decomposition "CVSS:3.1/AV:N/AC:L/PR:N")))))
          "CVSS:3.1" ["AV:N"; "AC:L"; "PR:N"] ["N"; "L"; "N"]).
  - reflexivity.
  - repeat constructor.
  - simpl. lia.
  - reflexivity.
Defined.

(** ** The value letter of a metric token *)

(** C4, as stated, fails: of a token with two colons the code keeps what
    lies between them, not everything after the first. *)
Lemma metric_value_two_colons :
  metric_value "AV:N:X" = Ok "N"
  /\ spec_metric_value "AV:N:X" = "N:X"
  /\ metric_value "AV:N:X" <> Ok (spec_metric_value "AV:N:X").
Proof. split; [reflexivity|]. split; [reflexivity|]. discriminate. Qed.

(** C4 (amended): a token with a ":" yields what lies between its first
    ":" and the next ":" (or the end of the token), which is everything
    after the first ":" when the token has exactly one; a token without
    ":" is kept unchanged. *)
Theorem metric_value_between (x : string) :
  metric_value x = Ok (if PyStr.has_char colon x then between_colons x else x)
  /\ (PyStr.count_char colon x = 1 -> metric_value x = Ok (spec_metric_value x))
  /\ (PyStr.has_char colon x = false -> metric_value x = Ok x).
Proof.
  split; [|split].
  - apply metric_value_eq.
  - intros Hone. rewrite metric_value_eq. unfold spec_metric_value, between_colons.
    destruct (PyStr.has_char colon x); [|reflexivity].
    now rewrite (before_first_no_sep colon _ (count_one_after colon x Hone)).
  - intros Hno. rewrite metric_value_eq. now rewrite Hno.
Qed.

Lemma metric_value_between_witness :
  metric_value "AV:N" = Ok (spec_metric_value "AV:N")
  /\ metric_value "N/A" = Ok "N/A".
Proof.
  split.
  - apply (proj1 (proj2 (metric_value_between "AV:N"))). reflexivity.
  - apply (proj2 (proj2 (metric_value_between "N/A"))). reflexivity.
Defined.

(** ** CVE extraction *)

Lemma cve_loop_spec (refs : list value) :
  Forall (fun r => is_dict r = true) refs ->
  cve_loop refs = Ok (spec_cve refs).
Proof.
  induction 1 as [|r rest Hr _ IH]; [reflexivity|].
  destruct r as [| |l|d]; try discriminate.
  unfold spec_cve in *. simpl.
  destruct (assoc "@type" d) as [t|]; simpl.
  - destruct (is_vstr "cve" t); [|exact IH].
    simpl. now destruct (assoc "@id" d).
  - exact IH.
Qed.

Lemma find_first {A} (p : A -> bool) (before : list A) (x : A) (after : list A) :
  forallb (fun y => negb (p y)) before = true ->
  p x = true ->
  List.find p (before ++ x :: after) = Some x.
Proof.
  induction before as [|b bs IH]; simpl; intros Hb Hx.
  - now rewrite Hx.
  - apply andb_true_iff in Hb. destruct Hb as [Hnb Hbs].
    apply negb_true_iff in Hnb. rewrite Hnb. auto.
Qed.

Lemma find_unmatched {A} (p : A -> bool) (l : list A) :
  forallb (fun y => negb (p y)) l = true -> List.find p l = None.
Proof.
  induction l as [|b bs IH]; simpl; [reflexivity|].
  intros Hb. apply andb_true_iff in Hb. destruct Hb as [Hnb Hbs].
  apply negb_true_iff in Hnb. rewrite Hnb. auto.
Qed.

Lemma extract_cve_spec (nvt : list (string * value)) :
  refs_shape_ok nvt = true ->
  Forall (fun r => is_dict r = true) (reference_list (VDict nvt)) ->
  extract_cve (VDict nvt) = Ok (spec_cve (reference_list (VDict nvt))).
Proof.
  unfold refs_shape_ok, extract_cve, reference_list. simpl.
  destruct (assoc "refs" nvt) as [[| | |rd]|]; try discriminate; intros _.
  - simpl. destruct (assoc "ref" rd) as [[| |l|d]|]; simpl; intros Hall;
      [ inversion Hall; discriminate
      | inversion Hall; discriminate
      | exact (cve_loop_spec _ Hall)
      | exact (cve_loop_spec _ Hall)
      | reflexivity ].
  - intros _. reflexivity.
Qed.

(** C5: the CVE of a finding is the id of the first entry of its reference
    list whose type equals "cve" ("N/A" when that entry has no id), and
    "N/A" when the list is empty or has no such entry; a single reference
    object is treated as a one-element list and matched like any other. *)
Theorem cve_is_first_cve_reference (nvt : list (string * value)) :
  refs_shape_ok nvt = true ->
  Forall (fun r => is_dict r = true) (reference_list (VDict nvt)) ->
  extract_cve (VDict nvt) = Ok (spec_cve (reference_list (VDict nvt)))
  /\ (forall before r after,
         reference_list (VDict nvt) = before ++ r :: after ->
         forallb (fun y => negb (is_cve_ref y)) before = true ->
         is_cve_ref r = true ->
         extract_cve (VDict nvt) = Ok (ref_id r))
  /\ (reference_list (VDict nvt) = [] -> extract_cve (VDict nvt) = Ok (VStr NA))
  /\ (forallb (fun y => negb (is_cve_ref y)) (reference_list (VDict nvt)) = true ->
      extract_cve (VDict nvt) = Ok (VStr NA))
  /\ (forall rd single,
         assoc "refs" nvt = Some (VDict rd) ->
         assoc "ref" rd = Some (VDict single) ->
         reference_list (VDict nvt) = [VDict single]
         /\ extract_cve (VDict nvt)
            = Ok (if is_cve_ref (VDict single) then ref_id (VDict single)
                  else VStr NA)).
Proof.
  intros Hshape Hall.
  pose proof (extract_cve_spec nvt Hshape Hall) as Hspec.
  split; [exact Hspec|].
  split.
  { intros before r after Hl Hb Hr. rewrite Hspec, Hl.
    unfold spec_cve. now rewrite (find_first _ _ _ _ Hb Hr). }
  split.
  { intros Hnil. now rewrite Hspec, Hnil. }
  split.
  { intros Hno. rewrite Hspec. unfold spec_cve. now rewrite (find_unmatched _ _ Hno). }
  intros rd single Hrefs Href.
  assert (Hl : reference_list (VDict nvt) = [VDict single]).
  { unfold reference_list. now rewrite Hrefs, Href. }
  split; [exact Hl|].
  rewrite Hspec, Hl. unfold spec_cve. cbn [List.find].
  now destruct (is_cve_ref (VDict single)).
Qed.

Lemma cve_is_first_cve_reference_witness :
  extract_cve
    (VDict [("refs",
             VDict [("ref", VList [VDict [("@type", VStr "url"); ("@id", VStr "http://x")];
                                   VDict [("@type", VStr "cve"); ("@id", VStr "CVE-2023-0001")];
                                   VDict [("@type", VStr "cve"); ("@id", VStr "CVE-2023-0002")]])])])
  = Ok (VStr "CVE-2023-0001")
  /\ extract_cve
       (VDict [("refs",
                VDict [("ref", VDict [("@type", VStr "cve"); ("@id", VStr "CVE-2023-0001")])])])
     = Ok (VStr "CVE-2023-0001").
Proof.
  split.
  - match goal with
    | |- extract_cve (VDict ?nvt) = _ =>
        assert (Hall : Forall (fun r => is_dict r = true) (reference_list (VDict nvt)))
          by (simpl; repeat constructor);
        destruct (cve_is_first_cve_reference nvt eq_refl Hall) as (_ & Hfirst & _)
    end.
    apply (Hfirst [VDict [("@type", VStr "url"); ("@id", VStr "http://x")]]
                  (VDict [("@type", VStr "cve"); ("@id", VStr "CVE-2023-0001")])
                  [VDict [("@type", VStr "cve"); ("@id", VStr "CVE-2023-0002")]]);
      reflexivity.
  - match goal with
    | |- extract_cve (VDict ?nvt) = _ =>
        assert (Hall : Forall (fun r => is_dict r = true) (reference_list (VDict nvt)))
          by (simpl; repeat constructor);
        destruct (cve_is_first_cve_reference nvt eq_refl Hall)
          as (_ & _ & _ & _ & Hsingle)
    end.
    apply (Hsingle [("ref", VDict [("@type", VStr "cve"); ("@id", VStr "CVE-2023-0001")])]
                   [("@type", VStr "cve"); ("@id", VStr "CVE-2023-0001")]);
      reflexivity.
Defined.

(** ** The findings path *)

Lemma findings_absent (data : value) (k : string) :
  path_absent findings_path data k -> findings data = Raise (KeyError k).
Proof.
  unfold findings_path, findings, subscript. intros H.
  repeat match goal with
         | [ H : path_absent _ _ _ |- _ ] => inversion H; clear H; subst
         | [ H : assoc _ _ = _ |- _ ] => rewrite H; clear H; simpl
         end; reflexivity.
Qed.

Lemma subscript_get (v : value) (k : string) (x default : value) :
  subscript v k = Ok x -> get_default v k default = Ok x.
Proof.
  destruct v as [| | |d]; simpl; try discriminate.
  destruct (assoc k d); [auto|discriminate].
Qed.

Lemma findings_iterate_keys (data : value) (k : string) (v : value)
      (rest : list (string * value)) :
  findings data = Ok (VDict ((k, v) :: rest)) ->
  report_targets data = Raise TypeError.
Proof.
  unfold findings, report_targets. intros H.
  destruct (subscript data "get_reports_response") as [a|] eqn:Ha; [|discriminate].
  simpl in H.
  destruct (subscript a "report") as [b|] eqn:Hb; [|discriminate]. simpl in H.
  destruct (subscript b "report") as [c|] eqn:Hc; [|discriminate]. simpl in H.
  destruct (subscript c "results") as [d|] eqn:Hd; [|discriminate]. simpl in H.
  rewrite (subscript_get _ _ _ (VDict []) Ha). simpl.
  rewrite (subscript_get _ _ _ (VDict []) Hb). simpl.
  rewrite (subscript_get _ _ _ (VDict []) Hc). simpl.
  rewrite (subscript_get _ _ _ (VDict []) Hd). simpl.
  rewrite (subscript_get _ _ _ (VList []) H). reflexivity.
Qed.

Lemma report_scan_name_raises (data : value) (e : exn) :
  report_scan_name data = Raise e -> e = AttributeError.
Proof.
  unfold report_scan_name, get_default. intros H.
  repeat match type of H with
         | context [match ?v with VNone => _ | _ => _ end] =>
             destruct v; simpl in H
         | context [match assoc ?k ?d with _ => _ end] =>
             destruct (assoc k d); simpl in H
         end; congruence.
Qed.

(** ** The operation boundary *)

Section Boundary.

Context {S : Type} {service : GmpService S}.
Variable xmltodict_parse : element -> result value.

Lemma bind_ok {A B} (c : M S A) (k : A -> M S B) (w w' : world S) (a : A) :
  c w = (Ok a, w') -> bind c k w = k a w'.
Proof. intros H. unfold bind. now rewrite H. Qed.

Lemma bind_raise {A B} (c : M S A) (k : A -> M S B) (w w' : world S) (e : exn) :
  c w = (Raise e, w') -> bind c k w = (Raise e, w').
Proof. intros H. unfold bind. now rewrite H. Qed.

Lemma command_run (ev : event) (op : S -> result element * S)
      (w : world S) (r : result element) (s' : S) :
  op (remote w) = (r, s') ->
  command ev op w = (r, World s' true (trace w ++ [ev]) (log w)).
Proof. intros H. unfold command. now rewrite H. Qed.

Lemma boundary (body : M S value) (w : world S) :
  try_finally (try_except (with_gmp body) gvm_handler) disconnect w
  = (at_boundary (fst (body w)), closed (closed (snd (body w)))).
Proof.
  unfold try_finally, try_except, with_gmp, try_finally, disconnect.
  destruct (body w) as [[v|e] w1]; simpl; [reflexivity|].
  destruct e; reflexivity.
Qed.

Lemma trigger_scan_boundary (n h p : string) (w : world S) :
  trigger_scan n h p w
  = (at_boundary (fst (trigger_scan_body n h p w)),
     closed (closed (snd (trigger_scan_body n h p w)))).
Proof. apply boundary. Qed.

Lemma retrieve_results_boundary (sid : string) (w : world S) :
  retrieve_results xmltodict_parse sid w
  = (at_boundary (fst (retrieve_results_body xmltodict_parse sid w)),
     closed (closed (snd (retrieve_results_body xmltodict_parse sid w)))).
Proof. apply boundary. Qed.

Lemma closed_last (w : world S) (d : event) :
  last (trace (closed w)) d = EvDisconnect.
Proof. unfold closed. simpl. apply last_last. Qed.

(** C10: whatever the service does and however the body ends (a value, a
    handled GvmError or any other exception), both operations end with
    the socket disconnected, and the disconnect is the last thing that
    reaches the connection. *)
Theorem session_always_disconnected
        (scan_name targets port_list_id scan_id : string) (w : world S) :
  connected (snd (trigger_scan scan_name targets port_list_id w)) = false
  /\ last (trace (snd (trigger_scan scan_name targets port_list_id w)))
          EvGetTargets = EvDisconnect
  /\ connected (snd (retrieve_results xmltodict_parse scan_id w)) = false
  /\ last (trace (snd (retrieve_results xmltodict_parse scan_id w)))
          EvGetTargets = EvDisconnect.
Proof.
  rewrite trigger_scan_boundary, retrieve_results_boundary. simpl.
  repeat split; apply last_last.
Qed.

(** *** The findings path inside [process_report] *)

Lemma process_report_absent
      (data scan_name targets : value) (k : string) (w : world S) :
  path_absent findings_path data k ->
  process_report data scan_name targets w
  = (Ok VNone,
     World (remote w) (connected w) (trace w)
           (log w ++ [(ERROR, "Key error: " ++ squote ++ k ++ squote)%string])).
Proof.
  intros Habs. unfold process_report, bind, try_except, lift.
  rewrite (findings_absent data k Habs). reflexivity.
Qed.

(** C6: when a key of the findings path is missing at any level,
    [process_report] logs the KeyError and returns None; it does not
    raise. *)
Theorem missing_findings_path_returns_none
        (data scan_name targets : value) (k : string) (w : world S) :
  path_absent findings_path data k ->
  process_report data scan_name targets w
  = (Ok VNone,
     World (remote w) (connected w) (trace w)
           (log w ++ [(ERROR, "Key error: " ++ squote ++ k ++ squote)%string])).
Proof.
  intros Habs.
  pose proof (findings_absent data k Habs) as Hraise.
  unfold process_report, bind, try_except, lift.
  rewrite Hraise. cbn [logging ret]. reflexivity.
Qed.

Lemma targets_of_absent (data : value) (k : string) :
  path_absent findings_path data k -> report_targets data = Ok (VList []).
Proof.
  unfold findings_path, report_targets, get_default. intros H.
  repeat match goal with
         | [ H : path_absent _ _ _ |- _ ] => inversion H; clear H; subst
         | [ H : assoc _ _ = _ |- _ ] => rewrite H; clear H; simpl
         end; reflexivity.
Qed.

(** C7: a single finding stored as a mapping is not wrapped into a list.
    The loop then runs over the mapping's keys, the first field access
    on a key raises TypeError, [process_report] produces no record, and
    [retrieve_results], which only handles GvmError, lets the exception
    out (already line 179 or line 178 raises there). *)
Theorem single_finding_is_not_wrapped
        (data scan_name targets : value) (k : string) (v : value)
        (rest : list (string * value)) (scan_id : string) (w : world S) :
  findings data = Ok (VDict ((k, v) :: rest)) ->
  iterate (VDict ((k, v) :: rest))
  = Ok (VStr k :: map (fun kv => VStr (fst kv)) rest)
  /\ process_result (VStr k) = Raise TypeError
  /\ process_report data scan_name targets w = (Raise TypeError, w)
  /\ (forall r1 s1 resp s2,
         svc_authenticate "admin" "admin" (remote w) = (Ok r1, s1) ->
         svc_get_report scan_id report_filter s1 = (Ok resp, s2) ->
         xmltodict_parse resp = Ok data ->
         exists e w',
           retrieve_results xmltodict_parse scan_id w = (Raise e, w')
           /\ (e = TypeError \/ e = AttributeError)
           /\ connected w' = false).
Proof.
  intros Hf.
  split; [reflexivity|]. split; [reflexivity|]. split.
  { unfold process_report, bind, try_except, lift. rewrite Hf. reflexivity. }
  intros r1 s1 resp s2 Hauth Hrep Hparse.
  rewrite retrieve_results_boundary.
  unfold retrieve_results_body, gmp_authenticate, gmp_get_report, bind,
    command, lift.
  rewrite Hauth. simpl. rewrite Hrep, Hparse.
  destruct (report_scan_name data) as [nm|e] eqn:Hn.
  - rewrite (findings_iterate_keys data k v rest Hf). simpl.
    eexists _, _. split; [reflexivity|]. split; [now left | reflexivity].
  - rewrite (report_scan_name_raises data e Hn). simpl.
    eexists _, _. split; [reflexivity|]. split; [now right | reflexivity].
Qed.

(** *** GET /get_results/<scan_id> *)

(** C9: whatever [retrieve_results] returns (the normalised report, the
    error object of a remote failure, or None after a structural parse
    failure), the route answers with that body and status 200. *)
Theorem get_results_status_is_200 (scan_id : string) (w : world S) :
  (forall body w',
      retrieve_results xmltodict_parse scan_id w = (Ok body, w') ->
      get_results xmltodict_parse scan_id w = (Ok (body, 200), w'))
  /\ (forall body status w',
         get_results xmltodict_parse scan_id w = (Ok (body, status), w') ->
         status = 200
         /\ retrieve_results xmltodict_parse scan_id w = (Ok body, w'))
  /\ (forall r1 s1 msg s2,
         svc_authenticate "admin" "admin" (remote w) = (Ok r1, s1) ->
         svc_get_report scan_id report_filter s1 = (Raise (GvmError msg), s2) ->
         fst (get_results xmltodict_parse scan_id w)
         = Ok (error_object msg, 200))
  /\ (forall r1 s1 resp s2 data name k,
         svc_authenticate "admin" "admin" (remote w) = (Ok r1, s1) ->
         svc_get_report scan_id report_filter s1 = (Ok resp, s2) ->
         xmltodict_parse resp = Ok data ->
         report_scan_name data = Ok name ->
         path_absent findings_path data k ->
         fst (get_results xmltodict_parse scan_id w) = Ok (VNone, 200)).
Proof.
  split; [|split; [|split]].
  - intros body w' Hr. unfold get_results, bind. now rewrite Hr.
  - intros body status w'. unfold get_results, bind, ret.
    destruct (retrieve_results xmltodict_parse scan_id w) as [[b|e] w1];
      intros H; inversion H; subst; auto.
  - intros r1 s1 msg s2 Hauth Hrep.
    unfold get_results, bind. rewrite retrieve_results_boundary.
    unfold retrieve_results_body, gmp_authenticate, gmp_get_report, bind,
      command, lift.
    rewrite Hauth. simpl. rewrite Hrep. reflexivity.
  - intros r1 s1 resp s2 data name k Hauth Hrep Hparse Hname Habs.
    unfold get_results, bind. rewrite retrieve_results_boundary.
    unfold retrieve_results_body, gmp_authenticate, gmp_get_report, bind,
      command, lift.
    rewrite Hauth. simpl. rewrite Hrep, Hparse, Hname.
    rewrite (targets_of_absent data k Habs).
    rewrite (process_report_absent data name (VList []) k _ Habs).
    reflexivity.
Qed.

End Boundary.

(** ** Name resolution *)

Lemma first_named_skips (expected : string) (not_found : exn)
      (before rest : list element) :
  forallb (named_otherwise expected) before = true ->
  first_named expected not_found (before ++ rest)
  = first_named expected not_found rest.
Proof.
  induction before as [|b bs IH]; simpl; [reflexivity|].
  intros Hb. apply andb_true_iff in Hb. destruct Hb as [Hb Hbs].
  unfold named_otherwise in Hb.
  destruct (find b "name") as [nm|]; [|discriminate].
  apply negb_true_iff in Hb. rewrite Hb. auto.
Qed.

Lemma first_named_found (expected : string) (not_found : exn)
      (before : list element) (c nm : element) (after : list element) :
  forallb (named_otherwise expected) before = true ->
  find c "name" = Some nm ->
  el_text nm = Some expected ->
  first_named expected not_found (before ++ c :: after) = Ok (el_get c "id").
Proof.
  intros Hb Hc Ht. rewrite (first_named_skips _ _ _ _ Hb). simpl.
  rewrite Hc, Ht. simpl. now rewrite String.eqb_refl.
Qed.

Lemma first_named_missing (expected : string) (not_found : exn)
      (entities : list element) :
  forallb (named_otherwise expected) entities = true ->
  first_named expected not_found entities = Raise not_found.
Proof.
  intros Hb. rewrite <- (app_nil_r entities).
  now rewrite (first_named_skips _ _ _ _ Hb).
Qed.

Lemma text_is_exact (t : option string) (expected : string) :
  text_is t expected = true <-> t = Some expected.
Proof.
  destruct t as [s|]; simpl; [|split; discriminate].
  rewrite String.eqb_eq. split; congruence.
Qed.

Section Resolution.

Context {S : Type} {service : GmpService S}.

Lemma get_default_config_id_run (w : world S) (resp : element) (s' : S) :
  svc_get_configs (remote w) = (Ok resp, s') ->
  get_default_config_id w
  = (first_named default_config_name config_not_found (findall resp "config"),
     World s' true (trace w ++ [EvGetConfigs]) (log w)).
Proof.
  intros H. unfold get_default_config_id, gmp_get_configs, bind, command, lift.
  now rewrite H.
Qed.

Lemma get_default_scanner_id_run (w : world S) (resp : element) (s' : S) :
  svc_get_scanners (remote w) = (Ok resp, s') ->
  get_default_scanner_id w
  = (first_named default_scanner_name scanner_not_found
                 (findall resp "scanner"),
     World s' true (trace w ++ [EvGetScanners]) (log w)).
Proof.
  intros H. unfold get_default_scanner_id, gmp_get_scanners, bind, command, lift.
  now rewrite H.
Qed.

(** C8: resolution lists the entities of the kind and returns the id of
    the first one whose name is exactly the expected name ("Full and
    fast" for configurations, "OpenVAS Default" for scanners); when every
    listed entity is named otherwise it raises the not-found ValueError,
    and inside [trigger_scan] that error ends the orchestration on the
    spot: nothing is asked of the service after the listing, there is no
    second listing and no other name is tried. *)
Theorem resolution_is_first_exact_match
        (scan_name targets port_list_id : string) (w : world S) :
  (forall expected not_found before c nm after,
      forallb (named_otherwise expected) before = true ->
      find c "name" = Some nm ->
      el_text nm = Some expected ->
      first_named expected not_found (before ++ c :: after)
      = Ok (el_get c "id"))
  /\ (forall expected not_found entities,
         forallb (named_otherwise expected) entities = true ->
         first_named expected not_found entities = Raise not_found)
  /\ (forall t expected, text_is t expected = true <-> t = Some expected)
  /\ (forall resp s',
         svc_get_configs (remote w) = (Ok resp, s') ->
         get_default_config_id w
         = (first_named "Full and fast" config_not_found
                        (findall resp "config"),
            World s' true (trace w ++ [EvGetConfigs]) (log w)))
  /\ (forall resp s',
         svc_get_scanners (remote w) = (Ok resp, s') ->
         get_default_scanner_id w
         = (first_named "OpenVAS Default" scanner_not_found
                        (findall resp "scanner"),
            World s' true (trace w ++ [EvGetScanners]) (log w)))
  /\ (forall target_resp w1 resp s',
         (gmp_authenticate "admin" "admin" ;;
          delete_target_if_exists scan_name ;;
          gmp_create_target scan_name targets port_list_id)%py w
         = (Ok target_resp, w1) ->
         svc_get_configs (remote w1) = (Ok resp, s') ->
         forallb (named_otherwise "Full and fast") (findall resp "config") = true ->
         trigger_scan scan_name targets port_list_id w
         = (Raise config_not_found,
            closed (closed (World s' true (trace w1 ++ [EvGetConfigs]) (log w1)))))
  /\ (forall target_resp w1 config_id w2 resp s',
         (gmp_authenticate "admin" "admin" ;;
          delete_target_if_exists scan_name ;;
          gmp_create_target scan_name targets port_list_id)%py w
         = (Ok target_resp, w1) ->
         get_default_config_id w1 = (Ok config_id, w2) ->
         svc_get_scanners (remote w2) = (Ok resp, s') ->
         forallb (named_otherwise "OpenVAS Default") (findall resp "scanner") = true ->
         trigger_scan scan_name targets port_list_id w
         = (Raise scanner_not_found,
            closed (closed (World s' true (trace w2 ++ [EvGetScanners]) (log w2))))).
Proof.
  split; [exact first_named_found|].
  split; [exact first_named_missing|].
  split; [exact text_is_exact|].
  split; [exact (get_default_config_id_run w)|].
  split; [exact (get_default_scanner_id_run w)|].
  split.
  - intros target_resp w1 resp s' Hpre Hcfg Hnone.
    pose proof (get_default_config_id_run w1 resp s' Hcfg) as Hrun.
    rewrite (first_named_missing _ _ _ Hnone) in Hrun.
    rewrite trigger_scan_boundary.
    unfold trigger_scan_body. unfold bind in *.
    destruct (gmp_authenticate "admin" "admin" w) as [[a|e] wa]; [|discriminate].
    destruct (delete_target_if_exists scan_name wa) as [[b|e] wb]; [|discriminate].
    rewrite Hpre. change default_config_name with "Full and fast" in Hrun.
    rewrite Hrun. reflexivity.
  - intros target_resp w1 config_id w2 resp s' Hpre Hcfg Hscn Hnone.
    pose proof (get_default_scanner_id_run w2 resp s' Hscn) as Hrun.
    rewrite (first_named_missing _ _ _ Hnone) in Hrun.
    rewrite trigger_scan_boundary.
    unfold trigger_scan_body. unfold bind in *.
    destruct (gmp_authenticate "admin" "admin" w) as [[a|e] wa]; [|discriminate].
    destruct (delete_target_if_exists scan_name wa) as [[b|e] wb]; [|discriminate].
    rewrite Hpre, Hcfg. change default_scanner_name with "OpenVAS Default" in Hrun.
    rewrite Hrun. reflexivity.
Qed.

End Resolution.

(** ** What the boundary converts *)

Section ErrorPolicy.

Context {S : Type} {service : GmpService S}.
Variable xmltodict_parse : element -> result value.

Lemma at_boundary_no_gvm (r : result value) (msg : string) :
  at_boundary r <> Raise (GvmError msg).
Proof. destruct r as [v|[]]; discriminate. Qed.

(** C2 (amended): no GvmError leaves [trigger_scan] or
    [retrieve_results]: one raised in the body of the [with] block
    (by authentication or by any later command) is turned into the
    object {"error": message}; and a KeyError on the findings path
    inside [process_report] is turned into None. *)
Theorem gvm_errors_become_error_objects
        (scan_name targets port_list_id scan_id : string) (w : world S) :
  (forall msg,
      fst (trigger_scan scan_name targets port_list_id w) <> Raise (GvmError msg))
  /\ (forall msg,
         fst (trigger_scan_body scan_name targets port_list_id w)
         = Raise (GvmError msg) ->
         fst (trigger_scan scan_name targets port_list_id w)
         = Ok (error_object msg))
  /\ (forall msg s1,
         svc_authenticate "admin" "admin" (remote w) = (Raise (GvmError msg), s1) ->
         fst (trigger_scan scan_name targets port_list_id w) = Ok (error_object msg)
         /\ fst (retrieve_results xmltodict_parse scan_id w) = Ok (error_object msg))
  /\ (forall msg,
         fst (retrieve_results xmltodict_parse scan_id w) <> Raise (GvmError msg))
  /\ (forall msg,
         fst (retrieve_results_body xmltodict_parse scan_id w)
         = Raise (GvmError msg) ->
         fst (retrieve_results xmltodict_parse scan_id w) = Ok (error_object msg))
  /\ (forall data name tg k,
         path_absent findings_path data k ->
         fst (process_report data name tg w) = Ok VNone).
Proof.
  rewrite trigger_scan_boundary, (retrieve_results_boundary xmltodict_parse).
  simpl.
  split; [intros msg; apply at_boundary_no_gvm|].
  split; [intros msg H; now rewrite H|].
  split.
  { intros msg s1 Hauth.
    unfold trigger_scan_body, retrieve_results_body, gmp_authenticate, bind,
      command.
    rewrite Hauth. split; reflexivity. }
  split; [intros msg; apply at_boundary_no_gvm|].
  split; [intros msg H; now rewrite H|].
  intros data name tg k Habs.
  now rewrite (process_report_absent data name tg k w Habs).
Qed.

End ErrorPolicy.

(** ** The in-memory service *)

Section ListFacts.

Context {A : Type}.
Variables p q : A -> bool.

Lemma filter_filter_nil (l : list A) :
  filter p l = [] -> filter p (filter q l) = [].
Proof.
  induction l as [|x r IH]; simpl; [reflexivity|].
  destruct (p x) eqn:Hp; [discriminate|].
  intros Hr. destruct (q x); simpl; [rewrite Hp|]; auto.
Qed.

Lemma filter_filter_le (l : list A) :
  length (filter p (filter q l)) <= length (filter p l).
Proof.
  induction l as [|x r IH]; simpl; [lia|].
  destruct (q x); simpl; destruct (p x); simpl; lia.
Qed.

Lemma find_none_filter (l : list A) :
  List.find p l = None -> filter p l = [].
Proof.
  induction l as [|x r IH]; simpl; [reflexivity|].
  destruct (p x); [discriminate|]. exact IH.
Qed.

Lemma find_after_unmatched (l : list A) (x : A) :
  filter p l = [] -> p x = true -> List.find p (l ++ [x]) = Some x.
Proof.
  induction l as [|y r IH]; simpl; intros Hl Hx.
  - now rewrite Hx.
  - destruct (p y); [discriminate|]. auto.
Qed.

End ListFacts.

Module StubFacts.

Import Stub.

(** Removing the first target of a name from a list that holds at most
    one leaves none. *)
Lemma remove_first_named (name : string) (l : list target) (t : target) :
  length (filter (named name) l) <= 1 ->
  List.find (named name) l = Some t ->
  filter (named name) (filter (other_id (t_id t)) l) = [].
Proof.
  induction l as [|x r IH]; simpl; [discriminate|].
  destruct (named name x) eqn:Hx; simpl.
  - intros Hle Hfind. inversion Hfind; subst x.
    unfold other_id at 1. rewrite String.eqb_refl. simpl.
    apply filter_filter_nil.
    destruct (filter (named name) r); [reflexivity | simpl in Hle; lia].
  - intros Hle Hfind. destruct (other_id (t_id t) x); simpl.
    + rewrite Hx. auto.
    + auto.
Qed.

Lemma cleared_no_target (name : string) (st : state) :
  targets_named name st <= 1 ->
  filter (named name) (targets (cleared name st)) = [].
Proof.
  unfold targets_named, cleared, find_target. intros Hle.
  destruct (List.find _ (targets st)) as [t|] eqn:Hf.
  - simpl. now apply remove_first_named.
  - now apply find_none_filter.
Qed.

Lemma cleared_keeps (name : string) (st : state) :
  configs (cleared name st) = configs st
  /\ scanners (cleared name st) = scanners st
  /\ counter (cleared name st) = counter st
  /\ faults (cleared name st) = faults st
  /\ cascade (cleared name st) = cascade st
  /\ reports (cleared name st) = reports st
  /\ started (cleared name st) = started st.
Proof.
  unfold cleared. destruct (find_target name st); repeat split; reflexivity.
Qed.

Lemma cleared_tasks (name : string) (st : state) :
  tasks_named name (cleared name st) <= tasks_named name st
  /\ (cascade st = false -> tasks (cleared name st) = tasks st).
Proof.
  unfold cleared, tasks_named. destruct (find_target name st) as [t|]; simpl.
  - destruct (cascade st); split; try discriminate; auto.
    apply filter_filter_le.
  - split; auto.
Qed.

End StubFacts.

Module StubRuns.

Import Stub.

Lemma run_command (ev : event) (op : state -> result element * state)
      (w : world state) :
  faults (remote w) = [] ->
  command ev (guarded op) w
  = (fst (op (remote w)),
     World (snd (op (remote w))) true (trace w ++ [ev]) (log w)).
Proof.
  intros Hf. unfold command, guarded. rewrite Hf.
  now destruct (op (remote w)).
Qed.

Lemma response_id_attr (n s i : string) (a : list (string * string)) :
  response_id (response n s (("id", i) :: a) []) "id" = Some i.
Proof. reflexivity. Qed.

Lemma response_id_child (n s tag r : string) :
  response_id (response n s [] [Element tag [] (Some r) []]) tag = Some r.
Proof.
  unfold response_id, response. simpl. now rewrite String.eqb_refl.
Qed.

Lemma findall_targets (n s : string) (a : list (string * string))
      (l : list target) :
  findall (response n s a (map target_xml l)) "target" = map target_xml l.
Proof.
  unfold findall, response. simpl.
  induction l as [|t r IH]; simpl; [reflexivity|]. now rewrite IH.
Qed.

Lemma findall_named (tag n s : string) (a : list (string * string))
      (l : list (string * string)) :
  findall (response n s a (map (fun c => named_xml tag (fst c) (snd c)) l)) tag
  = map (fun c => named_xml tag (fst c) (snd c)) l.
Proof.
  unfold findall, response. simpl.
  induction l as [|t r IH]; simpl; [reflexivity|].
  rewrite String.eqb_refl. now rewrite IH.
Qed.

Lemma first_named_stub (tag expected : string) (not_found : exn)
      (l : list (string * string)) :
  first_named expected not_found
              (map (fun c => named_xml tag (fst c) (snd c)) l)
  = match id_of_name expected l with
    | Some i => Ok (Some i)
    | None => Raise not_found
    end.
Proof.
  unfold id_of_name.
  induction l as [|[i nm] r IH]; simpl; [reflexivity|].
  destruct (String.eqb nm expected); simpl; [reflexivity | exact IH].
Qed.

Lemma id_of_name_some (expected : string) (l : list (string * string)) :
  existsb (fun c => String.eqb (snd c) expected) l = true ->
  exists i, id_of_name expected l = Some i.
Proof.
  unfold id_of_name.
  induction l as [|[i nm] r IH]; simpl; [discriminate|].
  destruct (String.eqb nm expected); simpl; [now exists i | exact IH].
Qed.

(** The loop of [delete_target_if_exists] over the listed targets. *)
Lemma delete_loop_stub (name : string) (w : world state) (l : list target) :
  faults (remote w) = [] ->
  incl l (targets (remote w)) ->
  delete_loop name (map target_xml l) w
  = match List.find (named name) l with
    | Some t =>
        (Ok true,
         World (remove_target (t_id t) (remote w)) true
               (trace w ++ [EvDeleteTarget (Some (t_id t))])
               (log w ++ [(DEBUG, "Deleted existing target: " ++ name
                                  ++ " with ID: " ++ t_id t)%string]))
    | None => (Ok false, w)
    end.
Proof.
  intros Hf. induction l as [|t r IH]; intros Hin; [reflexivity|].
  cbn [map delete_loop List.find].
  change (find (target_xml t) "name")
    with (Some (Element "name" [] (Some (t_name t)) [])).
  change (el_get (target_xml t) "id") with (Some (t_id t)).
  cbn [el_text text_is]. unfold named at 1.
  destruct (String.eqb (t_name t) name) eqn:Hn.
  - unfold gmp_delete_target, bind. cbn [svc_delete_target service].
    unfold delete_target. rewrite (run_command _ _ _ Hf).
    assert (Hex : existsb (fun x => String.eqb (t_id x) (t_id t))
                          (targets (remote w)) = true).
    { apply existsb_exists. exists t. split; [apply Hin; now left|].
      apply String.eqb_refl. }
    rewrite Hex. reflexivity.
  - apply IH. intros x Hx. apply Hin. now right.
Qed.

Lemma delete_target_if_exists_stub (name : string) (w : world state) :
  faults (remote w) = [] ->
  delete_target_if_exists name w
  = (Ok (match find_target name (remote w) with
         | Some _ => true
         | None => false
         end),
     World (cleared name (remote w)) true
           (trace w ++ [EvGetTargets]
            ++ match find_target name (remote w) with
               | Some t => [EvDeleteTarget (Some (t_id t))]
               | None => []
               end)
           (log w ++ scan_log name (remote w))).
Proof.
  intros Hf.
  unfold delete_target_if_exists, try_except, bind, gmp_get_targets.
  cbn [svc_get_targets service]. unfold get_targets.
  rewrite (run_command _ _ _ Hf). cbn [fst snd].
  rewrite findall_targets.
  rewrite delete_loop_stub; [|exact Hf|apply incl_refl].
  unfold cleared, scan_log, find_target. cbn [remote trace log].
  destruct (List.find (named name) (targets (remote w))) as [t|].
  - now rewrite <- app_assoc.
  - now rewrite !app_nil_r.
Qed.

Lemma trigger_scan_body_stub (name hosts port : string) (w : world state) :
  ready (remote w) ->
  trigger_scan_body name hosts port w
  = (Ok (scan_reply name hosts (remote w)),
     World (scan_effect name hosts port (remote w)) true
           (trace w ++ session_trace name hosts port (remote w))
           (log w ++ scan_log name (remote w))).
Proof.
  intros (Hcfg & Hscn & Hf).
  destruct (StubFacts.cleared_keeps name (remote w))
    as (Kc & Ks & Kn & Kf & Kb & Kr & Kd).
  destruct (id_of_name_some _ _ Hcfg) as (cid & Hcid).
  destruct (id_of_name_some _ _ Hscn) as (sid & Hsid).
  assert (Hf' : faults (cleared name (remote w)) = []) by congruence.
  unfold trigger_scan_body.
  assert (H1 : gmp_authenticate "admin" "admin" w
               = (Ok (response "authenticate_response" "200" [] []),
                  World (remote w) true
                        (trace w ++ [EvAuthenticate "admin" "admin"]) (log w))).
  { unfold gmp_authenticate. cbn [svc_authenticate service].
    unfold authenticate. now rewrite (run_command _ _ _ Hf). }
  rewrite (bind_ok _ _ _ _ _ H1); cbv beta. clear H1.
  match goal with
  | |- context [bind (delete_target_if_exists name) _ ?w1] =>
      rewrite (bind_ok _ _ _ _ _ (delete_target_if_exists_stub name w1 Hf));
      cbv beta
  end.
  cbn [remote trace log].
  unfold gmp_create_target, get_default_config_id, get_default_scanner_id,
    gmp_get_configs, gmp_get_scanners, gmp_create_task, gmp_start_task,
    bind, lift, ret.
  cbn [svc_create_target svc_get_configs svc_get_scanners svc_create_task
       svc_start_task service].
  unfold create_target. rewrite run_command by exact Hf'.
  cbn [fst snd remote trace log]. rewrite response_id_attr.
  unfold get_configs. rewrite run_command by exact Hf'.
  cbn [fst snd remote trace log configs].
  rewrite findall_named, first_named_stub, Kc, Hcid.
  unfold get_scanners. rewrite run_command by exact Hf'.
  cbn [fst snd remote trace log scanners].
  rewrite findall_named, first_named_stub, Ks, Hsid.
  unfold create_task. rewrite run_command by exact Hf'.
  cbn [fst snd remote trace log targets tasks started configs scanners
       reports counter faults cascade].
  rewrite response_id_attr.
  unfold start_task. rewrite run_command by exact Hf'.
  cbn [fst snd remote trace log targets tasks started configs scanners
       reports counter faults cascade].
  rewrite existsb_app. cbn [existsb k_id]. rewrite String.eqb_refl, orb_true_r.
  cbn [fst snd remote trace log targets tasks started configs scanners
       reports counter faults cascade].
  rewrite response_id_child. cbn [value_opt].
  unfold scan_reply, scan_effect, session_trace. cbv zeta.
  rewrite ?Kc, ?Ks, ?Kn, ?Hcid, ?Hsid.
  repeat rewrite <- app_assoc. reflexivity.
Qed.

Lemma trigger_scan_stub (name hosts port : string) (w : world state) :
  ready (remote w) ->
  trigger_scan name hosts port w
  = (Ok (scan_reply name hosts (remote w)),
     World (scan_effect name hosts port (remote w)) false
           (trace w ++ scan_trace name hosts port (remote w))
           (log w ++ scan_log name (remote w))).
Proof.
  intros Hready. rewrite trigger_scan_boundary.
  rewrite (trigger_scan_body_stub name hosts port w Hready).
  unfold closed, scan_trace. cbn [fst snd remote trace log at_boundary].
  now rewrite <- !app_assoc.
Qed.

End StubRuns.

(** ** Two scans under one name *)

Module Rescan.

Import Stub.

Lemma ready_preserved (name hosts port : string) (st : state) :
  ready st -> ready (scan_effect name hosts port st).
Proof.
  destruct (StubFacts.cleared_keeps name st) as (Kc & Ks & _ & Kf & _).
  unfold ready, scan_effect. cbn [configs scanners faults].
  now rewrite Kc, Ks, Kf.
Qed.

Lemma one_target_after (name hosts port : string) (st : state) :
  targets_named name st <= 1 ->
  targets_named name (scan_effect name hosts port st) = 1
  /\ find_target name (scan_effect name hosts port st)
     = Some (created_target name hosts port st).
Proof.
  intros Hle.
  pose proof (StubFacts.cleared_no_target name st Hle) as Hnone.
  destruct (StubFacts.cleared_keeps name st) as (_ & _ & Kn & _).
  unfold targets_named, find_target, scan_effect, created_target.
  cbn [targets]. rewrite Kn. split.
  - rewrite filter_app, Hnone. simpl. unfold named at 1. simpl.
    now rewrite String.eqb_refl.
  - apply find_after_unmatched; [exact Hnone|].
    unfold named. simpl. apply String.eqb_refl.
Qed.

Lemma tasks_after (name hosts port : string) (st : state) :
  tasks_named name (scan_effect name hosts port st)
  = tasks_named name (cleared name st) + 1.
Proof.
  unfold tasks_named, scan_effect. cbn [tasks].
  rewrite filter_app, length_app. simpl. now rewrite String.eqb_refl.
Qed.

(** With a cascading service the second scan takes the first scan's
    task away together with the first scan's target. *)
Lemma cascade_drops_task (name hosts port : string) (st : state) :
  targets_named name st <= 1 ->
  cascade st = true ->
  tasks_named name (cleared name (scan_effect name hosts port st))
  <= tasks_named name st.
Proof.
  intros Hle Hc.
  destruct (one_target_after name hosts port st Hle) as (_ & Hfind).
  destruct (StubFacts.cleared_keeps name st) as (_ & _ & Kn & _ & Kb & _).
  unfold cleared at 1. rewrite Hfind.
  unfold remove_target, tasks_named, created_target. cbn [tasks t_id].
  unfold scan_effect at 1. cbn [cascade]. rewrite Kb, Hc.
  unfold scan_effect. cbn [tasks]. rewrite Kn.
  rewrite filter_app. simpl. rewrite String.eqb_refl. simpl.
  rewrite app_nil_r.
  etransitivity; [apply filter_filter_le|].
  apply (StubFacts.cleared_tasks name st).
Qed.

End Rescan.

(** C1, as stated, fails on a service that keeps its tasks: after two
    scans under one name there is one target and there are two tasks. *)
Lemma rescan_leaves_two_tasks :
  let first := trigger_scan "test1" "10.0.0.1,10.0.0.2" default_port_list_id
                            (Stub.fresh_world Stub.initial) in
  let second := trigger_scan "test1" "10.0.0.1,10.0.0.2" default_port_list_id
                             (snd first) in
  Stub.targets_named "test1" (remote (snd second)) = 1
  /\ Stub.tasks_named "test1" (remote (snd second)) = 2
  /\ length (Stub.tasks (remote (snd second))) = 2
  /\ Stub.tasks_named "test1" (remote (snd second)) <> 1.
Proof.
  vm_compute. split; [reflexivity|]. split; [reflexivity|].
  split; [reflexivity|]. discriminate.
Qed.

(** C1 (amended): on a service that is ready and holds at most one target
    of that name, two scans in sequence under one name both succeed and
    leave exactly one target of that name, the one the second scan
    created: the second scan deletes the first scan's target before it
    creates its own.  The orchestrator never deletes a task: where the
    service keeps the tasks of a deleted target, each scan adds one, so
    two more tasks of that name exist afterward; where the service drops
    them with the target, at least one and at most one more than before. *)
Theorem rescan_keeps_one_target (name hosts port : string) (st : Stub.state) :
  Stub.ready st ->
  Stub.targets_named name st <= 1 ->
  let first := trigger_scan name hosts port (Stub.fresh_world st) in
  let second := trigger_scan name hosts port (snd first) in
  fst first = Ok (Stub.scan_reply name hosts st)
  /\ fst second = Ok (Stub.scan_reply name hosts (remote (snd first)))
  /\ Stub.targets_named name (remote (snd first)) = 1
  /\ Stub.targets_named name (remote (snd second)) = 1
  /\ Stub.find_target name (remote (snd first))
     = Some (Stub.created_target name hosts port st)
  /\ Stub.find_target name (remote (snd second))
     = Some (Stub.created_target name hosts port (remote (snd first)))
  /\ trace (snd second)
     = trace (snd first)
       ++ [EvAuthenticate "admin" "admin"; EvGetTargets;
           EvDeleteTarget (Some (Stub.fresh_id (Stub.counter st)));
           EvCreateTarget name hosts port; EvGetConfigs; EvGetScanners;
           EvCreateTask name
                        (Stub.id_of_name default_config_name (Stub.configs st))
                        (Some (Stub.fresh_id (3 + Stub.counter st)))
                        (Stub.id_of_name default_scanner_name (Stub.scanners st));
           EvStartTask (Some (Stub.fresh_id (4 + Stub.counter st)));
           EvDisconnect; EvDisconnect]
  /\ (Stub.cascade st = false ->
      Stub.tasks_named name (remote (snd second)) = Stub.tasks_named name st + 2)
  /\ (Stub.cascade st = true ->
      1 <= Stub.tasks_named name (remote (snd second))
      /\ Stub.tasks_named name (remote (snd second))
         <= Stub.tasks_named name st + 1).
Proof.
  intros Hready Hle first second.
  assert (H1 : first = trigger_scan name hosts port (Stub.fresh_world st))
    by reflexivity.
  rewrite (StubRuns.trigger_scan_stub name hosts port (Stub.fresh_world st) Hready) in H1.
  cbn [Stub.fresh_world remote trace log] in H1.
  set (st1 := Stub.scan_effect name hosts port st) in *.
  pose proof (Rescan.ready_preserved name hosts port st Hready) as Hready1.
  destruct (Rescan.one_target_after name hosts port st Hle) as (Hone1 & Hfind1).
  fold st1 in Hready1, Hone1, Hfind1.
  assert (H2 : second = trigger_scan name hosts port (snd first)) by reflexivity.
  rewrite H1 in H2. cbn [snd] in H2.
  match type of H2 with
  | context [trigger_scan _ _ _ ?w] =>
      rewrite (StubRuns.trigger_scan_stub name hosts port w Hready1) in H2
  end.
  cbn [remote trace log] in H2.
  assert (Hle1 : Stub.targets_named name st1 <= 1) by lia.
  destruct (Rescan.one_target_after name hosts port st1 Hle1) as (Hone2 & Hfind2).
  destruct (StubFacts.cleared_keeps name st) as (Kc & Ks & Kn & _ & Kb & _).
  rewrite H2, H1. cbn [fst snd remote trace].
  split; [reflexivity|]. split; [reflexivity|].
  split; [exact Hone1|]. split; [exact Hone2|].
  split; [exact Hfind1|]. split; [exact Hfind2|].
  split.
  { unfold Stub.scan_trace, Stub.session_trace. rewrite Hfind1.
    unfold Stub.created_target. cbn [Stub.t_id].
    unfold st1, Stub.scan_effect. cbn [Stub.configs Stub.scanners Stub.counter].
    rewrite Kc, Ks, Kn. reflexivity. }
  split.
  - intros Hc.
    rewrite (Rescan.tasks_after name hosts port st1).
    assert (Hc1 : Stub.cascade st1 = false).
    { unfold st1, Stub.scan_effect. cbn [Stub.cascade]. congruence. }
    unfold Stub.tasks_named at 1.
    rewrite (proj2 (StubFacts.cleared_tasks name st1) Hc1).
    fold (Stub.tasks_named name st1). unfold st1.
    rewrite (Rescan.tasks_after name hosts port st).
    unfold Stub.tasks_named at 1.
    rewrite (proj2 (StubFacts.cleared_tasks name st) Hc).
    fold (Stub.tasks_named name st). lia.
  - intros Hc.
    rewrite (Rescan.tasks_after name hosts port st1).
    pose proof (Rescan.cascade_drops_task name hosts port st Hle Hc) as Hdrop.
    fold st1 in Hdrop. lia.
Qed.

Lemma rescan_keeps_one_target_witness :
  Stub.targets_named "test1"
    (remote (snd (trigger_scan "test1" "10.0.0.1" default_port_list_id
                    (snd (trigger_scan "test1" "10.0.0.1" default_port_list_id
                            (Stub.fresh_world Stub.initial)))))) = 1.
Proof.
  refine (proj1 (proj2 (proj2 (proj2
            (rescan_keeps_one_target "test1" "10.0.0.1" default_port_list_id
                                     Stub.initial _ _))))).
  - repeat split; reflexivity.
  - vm_compute. lia.
Defined.

(** ** The theorems at work on the in-memory service *)

Example cvss_full_vector :
  cvss_fields (VStr "CVSS:3.1/AV:N/AC:L/PR:N/UI:N/S:U/C:H/I:H/A:H")
  = Ok ["N"; "L"; "N"; "N"; "U"; "H"; "H"; "H"].
Proof. reflexivity. Qed.

Example cvss_empty_token_is_kept :
  cvss_fields (VStr "CVSS:3.1//AC:L")
  = Ok [EmptyString; "L"; "N/A"; "N/A"; "N/A"; "N/A"; "N/A"; "N/A"].
Proof. reflexivity. Qed.

Example first_scan_reply :
  fst (trigger_scan "test1" "10.0.0.1,10.0.0.2" default_port_list_id
                    (Stub.fresh_world Stub.initial))
  = Ok (VDict [("message", VStr "Scan started");
               ("scan_name", VStr "test1");
               ("targets", VStr "10.0.0.1,10.0.0.2");
               ("scan_id", VStr "id-2")]).
Proof. reflexivity. Qed.

Example two_findings_are_normalised :
  fst (retrieve_results Stub.to_dict "r2" (Stub.fresh_world Stub.reporting))
  = Ok (VDict
          [("scan_name", VStr "test1");
           ("targets", VList [VStr "10.0.0.1"]);
           ("result_details",
            VList [VDict [("id", VStr "res-1"); ("name", VStr "Weak SSH ciphers");
                          ("score", VStr "7.5");
                          ("creation_time", VStr "2024-01-01T00:00:00Z");
                          ("modification_time", VStr "2024-01-01T00:00:00Z")];
                   VDict [("id", VStr "res-2"); ("name", VStr "Weak SSH ciphers");
                          ("score", VStr "7.5");
                          ("creation_time", VStr "2024-01-01T00:00:00Z");
                          ("modification_time", VStr "2024-01-01T00:00:00Z")]]);
           ("result_summary",
            VList [VDict [("Endpoint", VStr "10.0.0.1"); ("CVE", VStr "CVE-2023-0001");
                          ("Score", VStr "7.5"); ("AV", VStr "N"); ("AC", VStr "L");
                          ("PR", VStr "N"); ("UI", VStr "N"); ("S", VStr "U");
                          ("C", VStr "H"); ("I", VStr "N"); ("A", VStr "N")];
                   VDict [("Endpoint", VStr "10.0.0.1"); ("CVE", VStr "CVE-2023-0001");
                          ("Score", VStr "7.5"); ("AV", VStr "N"); ("AC", VStr "L");
                          ("PR", VStr "N"); ("UI", VStr "N"); ("S", VStr "U");
                          ("C", VStr "H"); ("I", VStr "N"); ("A", VStr "N")]])]).
Proof. reflexivity. Qed.

Example trigger_route_answers_500 :
  fst (trigger_scan_api (Some "test1") (Some "10.0.0.1")
                        (Stub.fresh_world (Stub.failing_at 2 "connection lost")))
  = Ok (error_object "connection lost", 500)
  /\ fst (trigger_scan_api (Some "test1") None (Stub.fresh_world Stub.initial))
     = Ok (VDict [("error", VStr "scan_name, targets, are required")], 400).
Proof. split; reflexivity. Qed.

Lemma missing_findings_path_returns_none_witness :
  process_report
    (VDict [("get_reports_response",
             VDict [("report", VDict [("report", VDict [("task", VStr "t")])])])])
    (VStr "t") (VList []) (Stub.fresh_world Stub.initial)
  = (Ok VNone,
     World Stub.initial false [] [(ERROR, "Key error: 'results'")]).
Proof.
  apply (missing_findings_path_returns_none
           (VDict [("get_reports_response",
                    VDict [("report", VDict [("report", VDict [("task", VStr "t")])])])])
           (VStr "t") (VList []) "results" (Stub.fresh_world Stub.initial)).
  unfold findings_path.
  eapply absent_below; [reflexivity|].
  eapply absent_below; [reflexivity|].
  eapply absent_below; [reflexivity|].
  apply absent_here. reflexivity.
Defined.

Lemma single_finding_is_not_wrapped_witness :
  exists e w',
    retrieve_results Stub.to_dict "r1" (Stub.fresh_world Stub.reporting)
    = (Raise e, w')
    /\ (e = TypeError \/ e = AttributeError)
    /\ connected w' = false.
Proof.
  pose (data := match Stub.to_dict (Stub.report_xml "r1" [Stub.sample_result "res-1"]) with
                | Ok d => d
                | Raise _ => VNone
                end).
  assert (Hf : { rest | findings data = Ok (VDict (("@id", VStr "res-1") :: rest)) })
    by (eexists; reflexivity).
  destruct Hf as [rest Hf].
  eapply (proj2 (proj2 (proj2
            (single_finding_is_not_wrapped
               Stub.to_dict data VNone VNone "@id" (VStr "res-1") rest "r1"
               (Stub.fresh_world Stub.reporting) Hf))));
    reflexivity.
Defined.

Lemma resolution_is_first_exact_match_witness :
  first_named "Full and fast" config_not_found
              [Stub.named_xml "config" "c-1" "full and fast";
               Stub.named_xml "config" "c-2" "Full and";
               Stub.named_xml "config" "c-3" "Full and fast";
               Stub.named_xml "config" "c-4" "Full and fast"]
  = Ok (Some "c-3")
  /\ first_named "Full and fast" config_not_found
                 [Stub.named_xml "config" "c-1" "full and fast";
                  Stub.named_xml "config" "c-2" "Full and"]
     = Raise config_not_found
  /\ fst (trigger_scan "test1" "10.0.0.1" default_port_list_id
                       (Stub.fresh_world Stub.near_misses))
     = Raise config_not_found.
Proof.
  pose proof (resolution_is_first_exact_match
                "test1" "10.0.0.1" default_port_list_id
                (Stub.fresh_world Stub.near_misses))
    as (Hfound & Hmissing & _ & _ & _ & Hfatal & _).
  split; [|split].
  - apply (Hfound "Full and fast" config_not_found
                  [Stub.named_xml "config" "c-1" "full and fast";
                   Stub.named_xml "config" "c-2" "Full and"]
                  (Stub.named_xml "config" "c-3" "Full and fast")
                  (Element "name" [] (Some "Full and fast") [])
                  [Stub.named_xml "config" "c-4" "Full and fast"]);
      reflexivity.
  - apply Hmissing. reflexivity.
  - erewrite Hfatal; [reflexivity | reflexivity | reflexivity | reflexivity].
Defined.

Lemma get_results_status_is_200_witness :
  fst (get_results Stub.to_dict "r1"
                   (Stub.fresh_world (Stub.failing_at 1 "connection lost")))
  = Ok (error_object "connection lost", 200)
  /\ fst (get_results Stub.to_dict "r0" (Stub.fresh_world Stub.reporting))
     = Ok (VNone, 200).
Proof.
  split.
  - eapply (proj1 (proj2 (proj2
              (get_results_status_is_200
                 Stub.to_dict "r1"
                 (Stub.fresh_world (Stub.failing_at 1 "connection lost"))))));
      reflexivity.
  - eapply (proj2 (proj2 (proj2
              (get_results_status_is_200
                 Stub.to_dict "r0" (Stub.fresh_world Stub.reporting))))
              _ _ _ _ _ _ "report").
    + reflexivity.
    + reflexivity.
    + reflexivity.
    + reflexivity.
    + unfold findings_path.
      eapply absent_below; [reflexivity|].
      eapply absent_below; [reflexivity|].
      apply absent_here. reflexivity.
Defined.

Lemma gvm_errors_become_error_objects_witness :
  fst (trigger_scan "test1" "10.0.0.1" default_port_list_id
                    (Stub.fresh_world (Stub.failing_at 2 "connection lost")))
  = Ok (error_object "connection lost").
Proof.
  apply (proj1 (proj2
           (gvm_errors_become_error_objects
              Stub.to_dict "test1" "10.0.0.1" default_port_list_id "r1"
              (Stub.fresh_world (Stub.failing_at 2 "connection lost"))))).
  reflexivity.
Defined.

(** C2, as stated, fails: a report without the findings path comes back
    as None, which is not an error object, and the ValueError of a failed
    name resolution is no GvmError, so it leaves [trigger_scan] as an
    exception. *)
Lemma failures_not_all_error_objects :
  fst (retrieve_results Stub.to_dict "r0" (Stub.fresh_world Stub.reporting))
  = Ok VNone
  /\ (forall msg, Ok VNone <> Ok (error_object msg))
  /\ fst (trigger_scan "test1" "10.0.0.1" default_port_list_id
                       (Stub.fresh_world Stub.near_misses))
     = Raise config_not_found.
Proof.
  split; [reflexivity|]. split; [discriminate|]. reflexivity.
Qed.

(** * Further properties of the normaliser *)

Lemma has_char_before_first (sep : ascii) (s : string) :
  PyStr.has_char sep (PyStr.before_first sep s) = false.
Proof.
  induction s as [|c r IH]; simpl; [reflexivity|].
  destruct (Ascii.eqb c sep) eqn:Hc; simpl; [reflexivity|].
  now rewrite Hc.
Qed.

Lemma metric_value_no_colon (x v : string) :
  metric_value x = Ok v -> PyStr.has_char colon v = false.
Proof.
  rewrite metric_value_eq. intros H. inversion H; subst. clear H.
  destruct (PyStr.has_char colon x) eqn:Hc; [|exact Hc].
  apply has_char_before_first.
Qed.

Lemma mapM_forall {A B} (f : A -> result B) (P : B -> Prop) (l : list A)
      (r : list B) :
  (forall a b, f a = Ok b -> P b) -> mapM f l = Ok r -> Forall P r.
Proof.
  intros Hf. revert r. induction l as [|a l IH]; simpl; intros r Hr.
  - inversion Hr. constructor.
  - destruct (f a) as [b|] eqn:Hb; simpl in Hr; [|discriminate].
    destruct (mapM f l) as [bs|]; simpl in Hr; [|discriminate].
    inversion Hr; subst. constructor; eauto.
Qed.

Lemma mapM_total {A B} (f : A -> result B) (l : list A) :
  (forall a, exists b, f a = Ok b) -> exists r, mapM f l = Ok r.
Proof.
  intros Hf. induction l as [|a l [r IH]]; simpl; [now exists []|].
  destruct (Hf a) as [b Hb]. rewrite Hb, IH. simpl. now exists (b :: r).
Qed.

Lemma pad8_length (parts : list string) : length (pad8 parts) = 8.
Proof.
  unfold pad8. rewrite length_firstn, length_app, repeat_length. lia.
Qed.

Lemma cvss_fields_shape (severity_value : value) (fields : list string) :
  cvss_fields severity_value = Ok fields ->
  length fields = 8
  /\ Forall (fun v => PyStr.has_char colon v = false) fields.
Proof.
  unfold cvss_fields.
  destruct (vector_parts severity_value) as [parts|]; simpl; [|discriminate].
  intros H. split.
  - rewrite (mapM_length _ _ _ H). apply pad8_length.
  - apply (mapM_forall metric_value _ _ _ metric_value_no_colon H).
Qed.

(** X1: whatever the severity value is, when the decomposition returns it
    returns exactly eight values and none of them holds a ":"; for a
    string (and for None) it always returns: the index [1] after the
    split is never out of range. *)
Theorem cvss_fields_eight_values (severity_value : value) :
  (forall fields,
      cvss_fields severity_value = Ok fields ->
      length fields = 8
      /\ Forall (fun v => PyStr.has_char colon v = false) fields)
  /\ (forall s, exists fields, cvss_fields (VStr s) = Ok fields)
  /\ cvss_fields VNone = Ok (repeat NA 8).
Proof.
  split; [|split].
  - intros fields. apply cvss_fields_shape.
  - intros s. unfold cvss_fields. rewrite vector_parts_str. simpl.
    apply mapM_total. intros a. rewrite metric_value_eq. eauto.
  - reflexivity.
Qed.

Lemma cvss_fields_eight_values_witness :
  length ["N"; "L"; "N"; "N"; "U"; "H"; "H"; "H"] = 8.
Proof.
  apply (proj1 (proj1 (cvss_fields_eight_values
                         (VStr "CVSS:3.1/AV:N/AC:L/PR:N/UI:N/S:U/C:H/I:H/A:H"))
                      ["N"; "L"; "N"; "N"; "U"; "H"; "H"; "H"] eq_refl)).
Defined.

Lemma severity_absent (d : list (string * value)) (k : string) :
  path_absent severity_path (VDict d) k ->
  severity_value_of (VDict d) = Ok (VStr EmptyString).
Proof.
  unfold severity_path, severity_value_of, contains, subscript. intros H.
  repeat match goal with
         | [ H : path_absent _ _ _ |- _ ] => inversion H; clear H; subst
         | [ H : assoc _ _ = _ |- _ ] => rewrite H; clear H; simpl
         end; reflexivity.
Qed.

(** X2: when the nvt of a finding lacks the severity vector, a key being
    missing at any of the three levels severities / severity / value,
    the vector defaults to the empty string and all eight metrics come
    out as "N/A". *)
Theorem missing_severity_gives_na (d : list (string * value)) (k : string) :
  path_absent severity_path (VDict d) k ->
  severity_value_of (VDict d) = Ok (VStr EmptyString)
  /\ (sv <-- severity_value_of (VDict d) ;;; cvss_fields sv)%py
     = Ok (repeat NA 8).
Proof.
  intros H. rewrite (severity_absent d k H). split; reflexivity.
Qed.

Lemma missing_severity_gives_na_witness :
  severity_value_of
    (VDict [("cvss_base", VStr "5.0");
            ("severities", VDict [("severity", VDict [("type", VStr "x")])])])
  = Ok (VStr EmptyString).
Proof.
  refine (proj1 (missing_severity_gives_na
                   [("cvss_base", VStr "5.0");
                    ("severities", VDict [("severity", VDict [("type", VStr "x")])])]
                   "value" _)).
  unfold severity_path.
  eapply absent_below; [reflexivity|].
  eapply absent_below; [reflexivity|].
  apply absent_here. reflexivity.
Defined.

Lemma rbind_ok {A B} (r : result A) (k : A -> result B) (b : B) :
  rbind r k = Ok b -> exists a, r = Ok a /\ k a = Ok b.
Proof. destruct r as [a|e]; simpl; [eauto | discriminate]. Qed.

(** X3: a finding that is processed yields a detail record with exactly
    the keys id, name, score, creation_time, modification_time and a
    summary record with exactly the keys Endpoint, CVE, Score, AV, AC, PR,
    UI, S, C, I, A, in that order; the summary's Score is the detail's
    score, and the Endpoint is the finding's host text. *)
Theorem records_have_fixed_keys (res detail summary : value) :
  process_result res = Ok (detail, summary) ->
  exists dl sl,
    detail = VDict dl /\ summary = VDict sl
    /\ map fst dl = detail_keys
    /\ map fst sl = summary_keys
    /\ assoc "Score" sl = assoc "score" dl
    /\ (exists ep, endpoint_of res = Ok ep /\ assoc "Endpoint" sl = Some ep).
Proof.
  unfold process_result, endpoint_of. intros H.
  repeat match type of H with
         | rbind _ _ = Ok _ =>
             let x := fresh "x" in
             let Hx := fresh "Hx" in
             apply rbind_ok in H; destruct H as (x & Hx & H)
         end.
  match goal with
  | [ Hf : cvss_fields _ = Ok ?f |- _ ] =>
      destruct (cvss_fields_shape _ f Hf) as [Hlen _];
      do 8 (destruct f as [|? f]; [discriminate Hlen|]);
      destruct f; [|discriminate Hlen]
  end.
  inversion H; subst; clear H.
  eexists _, _. split; [reflexivity|]. split; [reflexivity|].
  split; [reflexivity|]. split; [reflexivity|].
  split.
  -     match goal with
    | [ Hs : subscript ?nvt "cvss_base" = Ok ?r,
        Hg : get_default ?nvt "cvss_base" _ = Ok ?sc |- _ ] =>
        rewrite (subscript_get _ _ _ (VStr NA) Hs) in Hg; inversion Hg; subst
    end.
    reflexivity.
  - eexists. split; [|reflexivity].
    match goal with
    | [ H1 : subscript res "host" = Ok _ |- _ ] => rewrite H1; simpl
    end.
    assumption.
Qed.

Lemma records_have_fixed_keys_witness :
  exists dl sl,
    VDict [("id", VStr "res-1"); ("name", VStr "Weak SSH ciphers");
           ("score", VStr "7.5");
           ("creation_time", VStr "2024-01-01T00:00:00Z");
           ("modification_time", VStr "2024-01-01T00:00:00Z")] = VDict dl
    /\ VDict [("Endpoint", VStr "10.0.0.1"); ("CVE", VStr "CVE-2023-0001");
              ("Score", VStr "7.5"); ("AV", VStr "N"); ("AC", VStr "L");
              ("PR", VStr "N"); ("UI", VStr "N"); ("S", VStr "U");
              ("C", VStr "H"); ("I", VStr "N"); ("A", VStr "N")] = VDict sl
    /\ map fst dl = detail_keys
    /\ map fst sl = summary_keys
    /\ assoc "Score" sl = assoc "score" dl
    /\ (exists ep, endpoint_of sample_finding = Ok ep
                   /\ assoc "Endpoint" sl = Some ep).
Proof.
  apply (records_have_fixed_keys sample_finding). reflexivity.
Defined.

(** X4: the score is required for the detail record although the summary
    defaults it: a finding whose nvt has no cvss_base is never processed,
    and one such finding anywhere in the list makes [process_report] raise
    for the whole report, without any record and without a log line. *)
Theorem finding_without_score_fails
        {S : Type} (res : value) (d : list (string * value)) :
  subscript res "nvt" = Ok (VDict d) ->
  assoc "cvss_base" d = None ->
  get_default (VDict d) "cvss_base" (VStr NA) = Ok (VStr NA)
  /\ (exists e, process_result res = Raise e)
  /\ (forall data items scan_name targets (w : world S),
         findings data = Ok (VList items) ->
         In res items ->
         exists e, process_report data scan_name targets w = (Raise e, w)).
Proof.
  intros Hnvt Hnone.
  assert (Hfail : exists e, process_result res = Raise e).
  { assert (Hs : subscript (VDict d) "cvss_base" = Raise (KeyError "cvss_base")).
    { unfold subscript. now rewrite Hnone. }
    unfold process_result.
    repeat match goal with
           | |- exists e, rbind (subscript (VDict d) "cvss_base") _ = Raise e =>
               rewrite Hs; cbn [rbind]; eexists; reflexivity
           | |- exists e, rbind (subscript res "nvt") _ = Raise e =>
               rewrite Hnvt; cbn [rbind]
           | |- exists e, rbind ?r _ = Raise e =>
               destruct r; cbn [rbind]; [|eexists; reflexivity]
           end. }
  split; [unfold get_default; now rewrite Hnone|].
  split; [exact Hfail|].
  intros data items scan_name targets w Hf Hin.
  destruct Hfail as [e He].
  assert (Hm : exists e', mapM process_result items = Raise e').
  { clear Hf. induction items as [|a l IH]; [destruct Hin|].
    simpl. destruct Hin as [->|Hin].
    - rewrite He. simpl. eauto.
    - destruct (process_result a); simpl; [|eauto].
      destruct (IH Hin) as [e' He']. rewrite He'. simpl. eauto. }
  destruct Hm as [e' He'].
  exists e'. unfold process_report, bind, try_except, lift, ret.
  rewrite Hf. simpl. now rewrite He'.
Qed.

Lemma finding_without_score_fails_witness :
  exists e, process_result finding_without_score = Raise e.
Proof.
  refine (proj1 (proj2 (finding_without_score_fails
                          (S := Stub.state) finding_without_score _ _ _))).
  - reflexivity.
  - reflexivity.
Defined.




Lemma scan_name_absent (data : value) (k : string) :
  path_absent scan_name_path data k -> report_scan_name data = Ok (VStr NA).
Proof.
  unfold scan_name_path, report_scan_name, get_default. intros H.
  repeat match goal with
         | [ H : path_absent _ _ _ |- _ ] => inversion H; clear H; subst
         | [ H : assoc _ _ = _ |- _ ] => rewrite H; clear H; simpl
         end; reflexivity.
Qed.

(** X6: the scan name is the report's task name when the four keys down
    to it are there, and "N/A" when one of them is missing at any level;
    the lookup raises only when something on the way is no mapping. *)
Theorem scan_name_defaults_to_na (data : value) :
  (forall k, path_absent scan_name_path data k ->
             report_scan_name data = Ok (VStr NA))
  /\ (forall a b c v,
         subscript data "get_reports_response" = Ok a ->
         subscript a "report" = Ok b ->
         subscript b "task" = Ok c ->
         subscript c "name" = Ok v ->
         report_scan_name data = Ok v)
  /\ (forall e, report_scan_name data = Raise e -> e = AttributeError).
Proof.
  split; [exact (scan_name_absent data)|]. split.
  - intros a b c v Ha Hb Hc Hv. unfold report_scan_name.
    rewrite (subscript_get _ _ _ (VDict []) Ha). simpl.
    rewrite (subscript_get _ _ _ (VDict []) Hb). simpl.
    rewrite (subscript_get _ _ _ (VDict []) Hc). simpl.
    exact (subscript_get _ _ _ (VStr NA) Hv).
  - exact (report_scan_name_raises data).
Qed.

Lemma scan_name_defaults_to_na_witness :
  report_scan_name (VDict [("get_reports_response", VDict [("report", VDict [])])])
  = Ok (VStr NA)
  /\ report_scan_name (report_of []) = Ok (VStr "test1").
Proof.
  split.
  - apply (proj1 (scan_name_defaults_to_na _) "task").
    unfold scan_name_path.
    eapply absent_below; [reflexivity|].
    eapply absent_below; [reflexivity|].
    apply absent_here. reflexivity.
  - eapply (proj1 (proj2 (scan_name_defaults_to_na _))); reflexivity.
Defined.

(** ** The set of targets *)

Lemma atom_eqb_eq (a b : value) :
  hashable a = true -> hashable b = true -> (atom_eqb a b = true <-> a = b).
Proof.
  destruct a, b; simpl; try discriminate; intros _ _;
    try (split; [discriminate | congruence]); try tauto.
  rewrite String.eqb_eq. split; congruence.
Qed.

Lemma dedupe_in (l : list value) (x : value) :
  Forall (fun v => hashable v = true) l ->
  (In x (dedupe l) <-> In x l).
Proof.
  induction 1 as [|a r Ha Hr IH]; simpl; [tauto|].
  rewrite filter_In, IH, negb_true_iff. split.
  - intros [->|[Hin _]]; auto.
  - intros [->|Hin]; [now left|].
    destruct (atom_eqb a x) eqn:E.
    + left. apply atom_eqb_eq; auto.
      rewrite Forall_forall in Hr. auto.
    + right. auto.
Qed.

Lemma dedupe_nodup (l : list value) :
  Forall (fun v => hashable v = true) l -> NoDup (dedupe l).
Proof.
  induction 1 as [|a r Ha Hr IH]; simpl; constructor.
  - rewrite filter_In. intros [_ Hneq].
    apply negb_true_iff in Hneq.
    assert (atom_eqb a a = true) by (apply atom_eqb_eq; auto). congruence.
  - now apply NoDup_filter.
Qed.

Lemma endpoints_collected (items hosts : list value) :
  Forall2 (fun item h => endpoint_of item = Ok h /\ hashable h = true)
          items hosts ->
  mapM (fun res =>
          (h <-- subscript res "host" ;;;
           t <-- subscript h "#text" ;;;
           if hashable t then Ok t else Raise TypeError)%py) items
  = Ok hosts.
Proof.
  induction 1 as [|item h items hosts [Hep Hh] _ IH]; simpl; [reflexivity|].
  unfold endpoint_of in Hep.
  destruct (subscript item "host") as [x|]; simpl in *; [|discriminate].
  rewrite Hep. simpl. rewrite Hh, IH. reflexivity.
Qed.

(** X7: the targets of a report are the endpoints of its findings as a
    set: every endpoint is listed, nothing else is, and none is listed
    twice.  A report without the findings path has no targets. *)
Theorem targets_are_a_set (data : value) :
  (forall items hosts,
      findings data = Ok (VList items) ->
      Forall2 (fun item h => endpoint_of item = Ok h /\ hashable h = true)
              items hosts ->
      exists l,
        report_targets data = Ok (VList l)
        /\ NoDup l
        /\ (forall h, In h l <-> In h hosts))
  /\ (forall k, path_absent findings_path data k ->
                report_targets data = Ok (VList [])).
Proof.
  split; [|exact (targets_of_absent data)].
  intros items hosts Hf Hall.
  assert (Hhash : Forall (fun v => hashable v = true) hosts).
  { clear Hf. induction Hall as [|? ? ? ? [_ Hh]]; constructor; auto. }
  exists (dedupe hosts). split; [|split].
  - unfold findings, report_targets in *.
    destruct (subscript data "get_reports_response") as [a|] eqn:Ha; [|discriminate].
    simpl in Hf.
    destruct (subscript a "report") as [b|] eqn:Hb; [|discriminate]. simpl in Hf.
    destruct (subscript b "report") as [c|] eqn:Hc; [|discriminate]. simpl in Hf.
    destruct (subscript c "results") as [d|] eqn:Hd; [|discriminate]. simpl in Hf.
    rewrite (subscript_get _ _ _ (VDict []) Ha). simpl.
    rewrite (subscript_get _ _ _ (VDict []) Hb). simpl.
    rewrite (subscript_get _ _ _ (VDict []) Hc). simpl.
    rewrite (subscript_get _ _ _ (VDict []) Hd). simpl.
    rewrite (subscript_get _ _ _ (VList []) Hf). simpl.
    now rewrite (endpoints_collected items hosts Hall).
  - now apply dedupe_nodup.
  - intros h. now apply dedupe_in.
Qed.

Lemma targets_are_a_set_witness :
  exists l,
    report_targets (report_of [sample_finding; sample_finding]) = Ok (VList l)
    /\ NoDup l
    /\ (forall h, In h l <-> In h [VStr "10.0.0.1"; VStr "10.0.0.1"]).
Proof.
  apply (proj1 (targets_are_a_set (report_of [sample_finding; sample_finding]))
               [sample_finding; sample_finding]).
  - reflexivity.
  - repeat constructor.
Defined.

(** * Further properties of the two operations and their routes *)

Section Sessions.

Context {S : Type} {service : GmpService S}.
Variable xmltodict_parse : element -> result value.

Lemma process_report_keeps_session (data scan_name targets : value) (w : world S) :
  trace (snd (process_report data scan_name targets w)) = trace w
  /\ remote (snd (process_report data scan_name targets w)) = remote w.
Proof.
  unfold process_report, bind, try_except, lift, ret, logging.
  destruct (findings data) as [results|[]]; simpl; try (split; reflexivity).
  destruct (iterate results) as [items|]; simpl; try (split; reflexivity).
  destruct (mapM process_result items); simpl; split; reflexivity.
Qed.

(** X8: fetching results only reads.  The session authenticates and, when
    that succeeded, asks once for the report of the given id with the
    fixed filter; nothing else reaches the service before the two
    disconnects, whatever the report holds and however the normaliser
    ends. *)
Theorem retrieve_results_only_reads (scan_id : string) (w : world S) :
  (trace (snd (retrieve_results xmltodict_parse scan_id w))
   = trace w ++ [EvAuthenticate "admin" "admin"; EvDisconnect; EvDisconnect]
   /\ remote (snd (retrieve_results xmltodict_parse scan_id w))
      = snd (svc_authenticate "admin" "admin" (remote w))
   /\ exists e, fst (svc_authenticate "admin" "admin" (remote w)) = Raise e)
  \/ (trace (snd (retrieve_results xmltodict_parse scan_id w))
      = trace w ++ [EvAuthenticate "admin" "admin";
                    EvGetReport scan_id
                      "levels=hml rows=100 min_qod=70 first=1 sort-reverse=severity";
                    EvDisconnect; EvDisconnect]
      /\ remote (snd (retrieve_results xmltodict_parse scan_id w))
         = snd (svc_get_report scan_id report_filter
                  (snd (svc_authenticate "admin" "admin" (remote w))))).
Proof.
  rewrite retrieve_results_boundary. unfold closed. cbn [snd trace remote].
  unfold retrieve_results_body, gmp_authenticate, gmp_get_report, bind,
    command, lift.
  destruct (svc_authenticate "admin" "admin" (remote w)) as [[r1|e1] s1];
    cbn [fst snd trace remote].
  - right.
    destruct (svc_get_report scan_id report_filter s1) as [[resp|e2] s2];
      cbn [fst snd trace remote];
      [|split; [now rewrite <- !app_assoc | reflexivity]].
    destruct (xmltodict_parse resp) as [data|];
      cbn [fst snd trace remote];
      [|split; [now rewrite <- !app_assoc | reflexivity]].
    destruct (report_scan_name data) as [nm|];
      cbn [fst snd trace remote];
      [|split; [now rewrite <- !app_assoc | reflexivity]].
    destruct (report_targets data) as [tg|];
      cbn [fst snd trace remote];
      [|split; [now rewrite <- !app_assoc | reflexivity]].
    match goal with
    | |- context [process_report data nm tg ?w1] =>
        destruct (process_report_keeps_session data nm tg w1) as [Ht Hr]
    end.
    rewrite Ht, Hr. cbn [trace remote].
    split; [now rewrite <- !app_assoc | reflexivity].
  - left. split; [now rewrite <- !app_assoc|]. split; [reflexivity|eauto].
Qed.

(** ** [delete_target_if_exists] *)

Lemma delete_loop_skips (name : string) (before rest : list element)
      (w : world S) :
  forallb (named_otherwise name) before = true ->
  delete_loop name (before ++ rest) w = delete_loop name rest w.
Proof.
  induction before as [|b bs IH]; simpl; [reflexivity|].
  intros Hb. apply andb_true_iff in Hb. destruct Hb as [Hb Hbs].
  unfold named_otherwise in Hb.
  destruct (find b "name") as [nm|]; [|discriminate].
  apply negb_true_iff in Hb. rewrite Hb. auto.
Qed.

Lemma delete_loop_none (name : string) (targets : list element) (w : world S) :
  forallb (named_otherwise name) targets = true ->
  delete_loop name targets w = (Ok false, w).
Proof.
  intros Hb. rewrite <- (app_nil_r targets).
  now rewrite (delete_loop_skips _ _ _ _ Hb).
Qed.

(** X9: the deletion is soft.  No GvmError leaves
    [delete_target_if_exists]; when the listing of the targets fails with
    one, the function logs "Error deleting target: <message>" and answers
    False without asking the service for anything else. *)
Theorem delete_target_soft_fails (target_name : string) (w : world S) :
  (forall msg,
      fst (delete_target_if_exists target_name w) <> Raise (GvmError msg))
  /\ (forall msg s',
         svc_get_targets (remote w) = (Raise (GvmError msg), s') ->
         delete_target_if_exists target_name w
         = (Ok false,
            World s' true (trace w ++ [EvGetTargets])
                  (log w ++ [(ERROR, "Error deleting target: " ++ msg)%string]))).
Proof.
  split.
  - intros msg. unfold delete_target_if_exists, try_except.
    destruct (bind gmp_get_targets _ w) as [[b|e] w1]; [discriminate|].
    destruct e; discriminate.
  - intros msg s' Hl.
    unfold delete_target_if_exists, try_except, bind, gmp_get_targets, command.
    rewrite Hl. reflexivity.
Qed.

(** X10: with the targets listed, only the first target whose name is
    exactly the given name is deleted, by its id, and nothing after it is
    looked at: the answer is True with a DEBUG line when the service
    deletes it, False with an ERROR line when the deletion fails with a
    GvmError, and False with no further command and no log line when no
    listed target carries the name. *)
Theorem delete_target_first_match
        (target_name : string) (w : world S) (resp : element) (s1 : S) :
  svc_get_targets (remote w) = (Ok resp, s1) ->
  (forallb (named_otherwise target_name) (findall resp "target") = true ->
   delete_target_if_exists target_name w
   = (Ok false, World s1 true (trace w ++ [EvGetTargets]) (log w)))
  /\ (forall before c nm after,
         findall resp "target" = before ++ c :: after ->
         forallb (named_otherwise target_name) before = true ->
         find c "name" = Some nm ->
         el_text nm = Some target_name ->
         (forall r s2,
             svc_delete_target (el_get c "id") s1 = (Ok r, s2) ->
             delete_target_if_exists target_name w
             = (Ok true,
                World s2 true
                      (trace w ++ [EvGetTargets; EvDeleteTarget (el_get c "id")])
                      (log w ++ [(DEBUG, "Deleted existing target: " ++ target_name
                                         ++ " with ID: "
                                         ++ str_opt (el_get c "id"))%string])))
         /\ (forall msg s2,
                svc_delete_target (el_get c "id") s1 = (Raise (GvmError msg), s2) ->
                delete_target_if_exists target_name w
                = (Ok false,
                   World s2 true
                         (trace w ++ [EvGetTargets; EvDeleteTarget (el_get c "id")])
                         (log w ++ [(ERROR, "Error deleting target: " ++ msg)%string])))).
Proof.
  intros Hl. split.
  - intros Hnone.
    unfold delete_target_if_exists, try_except, bind, gmp_get_targets, command.
    rewrite Hl. now rewrite (delete_loop_none _ _ _ Hnone).
  - intros before c nm after Hsplit Hbefore Hname Htext.
    assert (Hloop : forall w1,
               delete_loop target_name (findall resp "target") w1
               = (gmp_delete_target (el_get c "id") ;;
                  logging DEBUG ("Deleted existing target: " ++ target_name
                                 ++ " with ID: " ++ str_opt (el_get c "id")) ;;
                  ret true)%py w1).
    { intros w1. rewrite Hsplit, (delete_loop_skips _ _ _ _ Hbefore).
      simpl. rewrite Hname, Htext. simpl. now rewrite String.eqb_refl. }
    split.
    + intros r s2 Hd.
      unfold delete_target_if_exists, try_except, bind at 1, gmp_get_targets,
        command.
      rewrite Hl, Hloop.
      unfold gmp_delete_target, bind, command, logging, ret. cbn [remote].
      rewrite Hd. cbn [remote trace log]. now rewrite <- app_assoc.
    + intros msg s2 Hd.
      unfold delete_target_if_exists, try_except, bind at 1, gmp_get_targets,
        command.
      rewrite Hl, Hloop.
      unfold gmp_delete_target, bind, command, logging, ret. cbn [remote].
      rewrite Hd. cbn [remote trace log]. now rewrite <- app_assoc.
Qed.


(** ** The order of a scan session *)

Lemma command_trace (ev : event) (op : S -> result element * S) (w : world S) :
  trace (snd (command ev op w)) = trace w ++ [ev]
  /\ log (snd (command ev op w)) = log w.
Proof. unfold command. destruct (op (remote w)). split; reflexivity. Qed.

Lemma delete_loop_events (name : string) (targets : list element) (w : world S) :
  exists del,
    trace (snd (delete_loop name targets w)) = trace w ++ del
    /\ (del = [] \/ exists i, del = [EvDeleteTarget i]).
Proof.
  induction targets as [|t r IH]; simpl.
  - exists []. split; [now rewrite app_nil_r | now left].
  - destruct (find t "name") as [nm|].
    + destruct (text_is (el_text nm) name); [|exact IH].
      exists [EvDeleteTarget (el_get t "id")]. split; [|right; eauto].
      unfold bind, gmp_delete_target, command, logging, ret.
      destruct (svc_delete_target (el_get t "id") (remote w)) as [[x|e] s'];
        reflexivity.
    + exists []. split; [now rewrite app_nil_r | now left].
Qed.

Lemma delete_events (name : string) (w : world S) :
  exists del,
    trace (snd (delete_target_if_exists name w)) = trace w ++ EvGetTargets :: del
    /\ (del = [] \/ exists i, del = [EvDeleteTarget i]).
Proof.
  unfold delete_target_if_exists, try_except, bind, gmp_get_targets.
  destruct (command_trace EvGetTargets svc_get_targets w) as [Ht _].
  destruct (command EvGetTargets svc_get_targets w) as [[resp|e] w1];
    cbn [snd] in Ht.
  - destruct (delete_loop_events name (findall resp "target") w1)
      as (del & Hd & Hdel).
    exists del. split; [|exact Hdel].
    destruct (delete_loop name (findall resp "target") w1) as [[b|e] w2];
      cbn [snd] in Hd; [|destruct e]; cbn [snd logging bind ret trace];
      now rewrite Hd, Ht, <- app_assoc.
  - exists []. split; [|now left].
    destruct e; cbn [snd logging bind ret trace]; now rewrite Ht.
Qed.

Ltac step_command :=
  match goal with
  | |- context [match command ?ev ?op ?w with _ => _ end] =>
      let Ht := fresh "Ht" in
      destruct (command_trace ev op w) as [Ht _];
      destruct (command ev op w) as [[? | ?] ?]; cbn [snd] in Ht
  end.

Ltac step_delete n :=
  match goal with
  | |- context [match delete_target_if_exists n ?w with _ => _ end] =>
      let del := fresh "del" in
      let Ht := fresh "Ht" in
      let Hdel := fresh "Hdel" in
      destruct (delete_events n w) as (del & Ht & Hdel);
      destruct (delete_target_if_exists n w) as [[? | ?] ?]; cbn [snd] in Ht
  end.

Ltac step_resolution :=
  match goal with
  | |- context [match first_named ?x ?nf ?l with _ => _ end] =>
      destruct (first_named x nf l)
  end.

Ltac scan_cases n :=
  unfold trigger_scan_body, get_default_config_id, get_default_scanner_id,
    gmp_authenticate, gmp_create_target, gmp_get_configs, gmp_get_scanners,
    gmp_create_task, gmp_start_task, bind, lift, ret;
  repeat first [ step_command | step_delete n | step_resolution ].


Lemma body_reply (n h p : string) (w : world S) (v : value) :
  fst (trigger_scan_body n h p w) = Ok v ->
  exists scan_id, v = scan_started n h scan_id.
Proof.
  scan_cases n; cbn [fst]; intros H; inversion H; subst.
  eexists. reflexivity.
Qed.


(** X12: what [trigger_scan] returns is one of two objects: the error
    object of the GvmError that ended the session, or the reply
    {message: "Scan started", scan_name, targets, scan_id} that echoes the
    name and the hosts it was given; the latter only when the whole
    session went through. *)
Theorem trigger_scan_reply_shape
        (scan_name targets port_list_id : string) (w : world S) (v : value) :
  fst (trigger_scan scan_name targets port_list_id w) = Ok v ->
  (exists msg,
      v = error_object msg
      /\ fst (trigger_scan_body scan_name targets port_list_id w)
         = Raise (GvmError msg))
  \/ (exists scan_id,
         v = scan_started scan_name targets scan_id
         /\ fst (trigger_scan_body scan_name targets port_list_id w) = Ok v).
Proof.
  rewrite trigger_scan_boundary. cbn [fst].
  destruct (fst (trigger_scan_body scan_name targets port_list_id w))
    as [v0|e] eqn:Hb; simpl.
  - intros H. inversion H; subst. right.
    destruct (body_reply _ _ _ _ _ Hb) as [sid ->]. eauto.
  - destruct e; try discriminate. intros H. inversion H; subst. left. eauto.
Qed.

(** X13: POST /trigger_scan answers 400 with "scan_name, targets, are
    required", without opening a session, when a field is missing or
    empty; otherwise it runs the scan once and answers 500 with the error
    object or 200 with the "Scan started" reply; an exception of the scan
    passes through. *)
Theorem trigger_route_statuses (scan_name targets : option string) (w : world S) :
  (given scan_name && given targets = false ->
   trigger_scan_api scan_name targets w
   = (Ok (VDict [("error", VStr "scan_name, targets, are required")], 400), w))
  /\ (forall n t,
         scan_name = Some n -> targets = Some t ->
         given scan_name && given targets = true ->
         (forall e,
             fst (trigger_scan n t default_port_list_id w) = Raise e ->
             trigger_scan_api scan_name targets w
             = (Raise e, snd (trigger_scan n t default_port_list_id w)))
         /\ (forall v,
                fst (trigger_scan n t default_port_list_id w) = Ok v ->
                (exists msg,
                    v = error_object msg
                    /\ trigger_scan_api scan_name targets w
                       = (Ok (v, 500), snd (trigger_scan n t default_port_list_id w)))
                \/ (exists scan_id,
                       v = scan_started n t scan_id
                       /\ trigger_scan_api scan_name targets w
                          = (Ok (v, 200),
                             snd (trigger_scan n t default_port_list_id w))))).
Proof.
  split.
  - unfold trigger_scan_api. intros Hg.
    destruct scan_name as [n|], targets as [t|]; try reflexivity.
    now rewrite Hg.
  - intros n t -> -> Hg. unfold trigger_scan_api. rewrite Hg. unfold bind.
    split.
    + intros e He.
      destruct (trigger_scan n t default_port_list_id w) as [[v|e'] w'];
        simpl in *; congruence.
    + intros v Hv.
      pose proof (trigger_scan_boundary n t default_port_list_id w) as Hbd.
      destruct (trigger_scan n t default_port_list_id w) as [r w'] eqn:Hrun.
      cbn [fst snd] in *. subst r.
      inversion Hbd as [[Hres Hw]].
      destruct (fst (trigger_scan_body n t default_port_list_id w))
        as [v0|e] eqn:Hb; simpl in Hres.
      * inversion Hres; subst v0. right.
        destruct (body_reply _ _ _ _ _ Hb) as [sid ->].
        exists sid. split; reflexivity.
      * destruct e; try discriminate. inversion Hres; subst v. left.
        exists msg. split; reflexivity.
Qed.

Lemma listing_failed (name : string) (w : world S) (msg : string) (s' : S) :
  svc_get_targets (remote w) = (Raise (GvmError msg), s') ->
  delete_target_if_exists name w
  = (Ok false,
     World s' true (trace w ++ [EvGetTargets])
           (log w ++ [(ERROR, "Error deleting target: " ++ msg)%string])).
Proof.
  intros Hl.
  unfold delete_target_if_exists, try_except, bind, gmp_get_targets, command.
  rewrite Hl. reflexivity.
Qed.

Ltac step_command_log :=
  match goal with
  | |- context [match command ?ev ?op ?w with _ => _ end] =>
      let Ht := fresh "Ht" in
      let Hl := fresh "Hl" in
      destruct (command_trace ev op w) as [Ht Hl];
      destruct (command ev op w) as [[? | ?] ?]; cbn [snd] in Ht, Hl
  end.

(** X14: the outcome of the deletion step does not gate the scan.  When
    the listing of the targets fails with a GvmError, [trigger_scan] logs
    the error and still asks the service to create the target. *)
Theorem scan_continues_after_listing_failure
        (scan_name targets port_list_id : string) (w : world S)
        (r1 : element) (s1 : S) (msg : string) (s2 : S) :
  svc_authenticate "admin" "admin" (remote w) = (Ok r1, s1) ->
  svc_get_targets s1 = (Raise (GvmError msg), s2) ->
  (exists l,
      trace (snd (trigger_scan scan_name targets port_list_id w))
      = trace w ++ [EvAuthenticate "admin" "admin"; EvGetTargets;
                    EvCreateTarget scan_name targets port_list_id] ++ l)
  /\ In (ERROR, "Error deleting target: " ++ msg)%string
        (log (snd (trigger_scan scan_name targets port_list_id w))).
Proof.
  intros Hauth Hlist.
  rewrite trigger_scan_boundary. unfold closed. cbn [snd trace log].
  assert (H1 : gmp_authenticate "admin" "admin" w
               = (Ok r1, World s1 true
                               (trace w ++ [EvAuthenticate "admin" "admin"])
                               (log w))).
  { unfold gmp_authenticate, command. now rewrite Hauth. }
  unfold trigger_scan_body.
  rewrite (bind_ok _ _ _ _ _ H1); cbv beta.
  match goal with
  | |- context [bind (delete_target_if_exists scan_name) _ ?w1] =>
      rewrite (bind_ok _ _ _ _ _ (listing_failed scan_name w1 msg s2 Hlist));
      cbv beta
  end.
  cbn [trace log].
  unfold get_default_config_id, get_default_scanner_id, gmp_create_target,
    gmp_get_configs, gmp_get_scanners, gmp_create_task, gmp_start_task,
    bind, lift, ret.
  repeat first [ step_command_log | step_resolution ];
    cbn [snd trace log];
    repeat match goal with
           | [ H : trace _ = _ |- _ ] => rewrite H; clear H
           | [ H : log _ = _ |- _ ] => rewrite H; clear H
           end;
    cbn [trace log]; rewrite <- ?app_assoc;
    (split; [eexists; simpl; reflexivity | apply in_or_app; right; now left]).
Qed.

(** X15: nothing is rolled back.  When the creation of the task fails
    with a GvmError after the target was created, [trigger_scan] answers
    with the error object and sends nothing more: no start, no
    compensating deletion; the service is left as the failed command left
    it.  The same holds when starting the task fails. *)
Theorem no_rollback_after_task_failure
        (scan_name targets port_list_id : string) (w : world S)
        (target_resp : element) (w1 : world S)
        (config_id : option string) (w2 : world S)
        (scanner_id : option string) (w3 : world S) :
  (gmp_authenticate "admin" "admin" ;;
   delete_target_if_exists scan_name ;;
   gmp_create_target scan_name targets port_list_id)%py w
  = (Ok target_resp, w1) ->
  get_default_config_id w1 = (Ok config_id, w2) ->
  get_default_scanner_id w2 = (Ok scanner_id, w3) ->
  (forall msg s',
      svc_create_task scan_name config_id (response_id target_resp "id")
                      scanner_id (remote w3)
      = (Raise (GvmError msg), s') ->
      trigger_scan scan_name targets port_list_id w
      = (Ok (error_object msg),
         closed (closed
           (World s' true
                  (trace w3 ++ [EvCreateTask scan_name config_id
                                  (response_id target_resp "id") scanner_id])
                  (log w3)))))
  /\ (forall task_resp s4 msg s',
         svc_create_task scan_name config_id (response_id target_resp "id")
                         scanner_id (remote w3)
         = (Ok task_resp, s4) ->
         svc_start_task (response_id task_resp "id") s4
         = (Raise (GvmError msg), s') ->
         trigger_scan scan_name targets port_list_id w
         = (Ok (error_object msg),
            closed (closed
              (World s' true
                     (trace w3
                      ++ [EvCreateTask scan_name config_id
                            (response_id target_resp "id") scanner_id;
                          EvStartTask (response_id task_resp "id")])
                     (log w3))))).
Proof.
  intros Hpre Hcfg Hscn.
  assert (Hrun : forall k : element -> M S value,
             (gmp_authenticate "admin" "admin" ;;
              delete_target_if_exists scan_name ;;
              target_resp0 <- gmp_create_target scan_name targets port_list_id ;;
              k target_resp0)%py w
             = k target_resp w1).
  { intros k. unfold bind in *.
    destruct (gmp_authenticate "admin" "admin" w) as [[a|e] wa]; [|discriminate].
    destruct (delete_target_if_exists scan_name wa) as [[b|e] wb]; [|discriminate].
    now rewrite Hpre. }
  split.
  - intros msg s' Htask.
    rewrite trigger_scan_boundary. unfold trigger_scan_body.
    rewrite Hrun. unfold bind. rewrite Hcfg, Hscn.
    unfold gmp_create_task, command. rewrite Htask. reflexivity.
  - intros task_resp s4 msg s' Htask Hstart.
    rewrite trigger_scan_boundary. unfold trigger_scan_body.
    rewrite Hrun. unfold bind. rewrite Hcfg, Hscn.
    unfold gmp_create_task, gmp_start_task, command. rewrite Htask.
    cbn [remote trace log]. rewrite Hstart.
    cbn [fst snd at_boundary]. now rewrite <- app_assoc.
Qed.

End Sessions.

(** ** The further theorems at work on the in-memory service *)

Lemma delete_target_soft_fails_witness :
  delete_target_if_exists "test1" (Stub.fresh_world (Stub.failing_at 0 "busy"))
  = (Ok false,
     World (Stub.set_faults [] Stub.initial) true [EvGetTargets]
           [(ERROR, "Error deleting target: busy")]).
Proof.
  apply (proj2 (delete_target_soft_fails
                  "test1" (Stub.fresh_world (Stub.failing_at 0 "busy")))
               "busy" (Stub.set_faults [] Stub.initial)).
  reflexivity.
Defined.

Lemma delete_target_first_match_witness :
  delete_target_if_exists "test1" (Stub.fresh_world crowded_service)
  = (Ok true,
     World (Stub.remove_target "t-2" crowded_service) true
           [EvGetTargets; EvDeleteTarget (Some "t-2")]
           [(DEBUG, "Deleted existing target: test1 with ID: t-2")]).
Proof.
  refine (proj1 (proj2 (delete_target_first_match
                          "test1" (Stub.fresh_world crowded_service) _ _ _)
                       [Stub.target_xml (Stub.Target "t-1" "other" "10.0.0.9" "pl")]
                       (Stub.target_xml (Stub.Target "t-2" "test1" "10.0.0.1" "pl"))
                       (Element "name" [] (Some "test1") [])
                       [Stub.target_xml (Stub.Target "t-3" "test1" "10.0.0.2" "pl")]
                       _ _ _ _) _ _ _);
    reflexivity.
Defined.

Lemma trigger_scan_reply_shape_witness :
  (exists msg,
      scan_started "test1" "10.0.0.1" (Some "id-2") = error_object msg
      /\ fst (trigger_scan_body "test1" "10.0.0.1" default_port_list_id
                                (Stub.fresh_world Stub.initial))
         = Raise (GvmError msg))
  \/ (exists scan_id,
         scan_started "test1" "10.0.0.1" (Some "id-2")
         = scan_started "test1" "10.0.0.1" scan_id
         /\ fst (trigger_scan_body "test1" "10.0.0.1" default_port_list_id
                                   (Stub.fresh_world Stub.initial))
            = Ok (scan_started "test1" "10.0.0.1" (Some "id-2"))).
Proof.
  apply (trigger_scan_reply_shape "test1" "10.0.0.1" default_port_list_id
                                  (Stub.fresh_world Stub.initial)).
  reflexivity.
Defined.

Lemma trigger_route_statuses_witness :
  trigger_scan_api (Some "test1") (Some EmptyString)
                   (Stub.fresh_world Stub.initial)
  = (Ok (VDict [("error", VStr "scan_name, targets, are required")], 400),
     Stub.fresh_world Stub.initial)
  /\ ((exists msg,
          scan_started "test1" "10.0.0.1" (Some "id-2") = error_object msg
          /\ trigger_scan_api (Some "test1") (Some "10.0.0.1")
                              (Stub.fresh_world Stub.initial)
             = (Ok (scan_started "test1" "10.0.0.1" (Some "id-2"), 500),
                snd (trigger_scan "test1" "10.0.0.1" default_port_list_id
                                  (Stub.fresh_world Stub.initial))))
      \/ (exists scan_id,
             scan_started "test1" "10.0.0.1" (Some "id-2")
             = scan_started "test1" "10.0.0.1" scan_id
             /\ trigger_scan_api (Some "test1") (Some "10.0.0.1")
                                 (Stub.fresh_world Stub.initial)
                = (Ok (scan_started "test1" "10.0.0.1" (Some "id-2"), 200),
                   snd (trigger_scan "test1" "10.0.0.1" default_port_list_id
                                     (Stub.fresh_world Stub.initial))))).
Proof.
  split.
  - apply (proj1 (trigger_route_statuses (Some "test1") (Some EmptyString)
                                         (Stub.fresh_world Stub.initial))).
    reflexivity.
  - refine (proj2 (proj2 (trigger_route_statuses
                            (Some "test1") (Some "10.0.0.1")
                            (Stub.fresh_world Stub.initial))
                         "test1" "10.0.0.1" eq_refl eq_refl _) _ _);
      reflexivity.
Defined.

Lemma scan_continues_after_listing_failure_witness :
  In (ERROR, "Error deleting target: busy")
     (log (snd (trigger_scan "test1" "10.0.0.1" default_port_list_id
                             (Stub.fresh_world (Stub.failing_at 1 "busy"))))).
Proof.
  refine (proj2 (scan_continues_after_listing_failure
                   "test1" "10.0.0.1" default_port_list_id
                   (Stub.fresh_world (Stub.failing_at 1 "busy"))
                   _ _ "busy" _ eq_refl eq_refl)).
Defined.

Lemma no_rollback_after_task_failure_witness :
  fst (trigger_scan "test1" "10.0.0.1" default_port_list_id
                    (Stub.fresh_world (Stub.failing_at 5 "busy")))
  = Ok (error_object "busy")
  /\ Stub.targets_named "test1"
       (remote (snd (trigger_scan "test1" "10.0.0.1" default_port_list_id
                                  (Stub.fresh_world (Stub.failing_at 5 "busy")))))
     = 1.
Proof.
  set (w := Stub.fresh_world (Stub.failing_at 5 "busy")).
  let pre := eval vm_compute in
      ((gmp_authenticate "admin" "admin" ;;
        delete_target_if_exists "test1" ;;
        gmp_create_target "test1" "10.0.0.1" default_port_list_id)%py w) in
  match pre with
  | (Ok ?t, ?w1) =>
      let c := eval vm_compute in (get_default_config_id w1) in
      match c with
      | (Ok ?cid, ?w2) =>
          let s := eval vm_compute in (get_default_scanner_id w2) in
          match s with
          | (Ok ?sid, ?w3) =>
              let f := eval vm_compute in
                  (svc_create_task "test1" cid (response_id t "id") sid (remote w3)) in
              match f with
              | (_, ?s') =>
                  pose proof (proj1 (no_rollback_after_task_failure
                                       "test1" "10.0.0.1" default_port_list_id
                                       w t w1 cid w2 sid w3
                                       eq_refl eq_refl eq_refl)
                                    "busy" s' eq_refl) as H
              end
          end
      end
  end.
  rewrite H. split; reflexivity.
Defined.
